(** * Youtube-helper (main.py): a shallow embedding and its properties

    The development follows [main.py]: the URL validator
    [is_valid_youtube_url], the metadata fetcher [get_video_info], the two
    formatters [format_filesize] and [format_duration], and the downloader
    [download_video].  Python values are modelled by the type [pyval],
    exceptions by [exception], and the two collaborators (the extraction
    library and the streamlit page) by explicit state passing over a
    [world].

    Part I holds the definitions, Part II the properties the
    specification states, Part III further properties of the code. *)

From Stdlib Require Import ZArith Ascii DecimalPos DecimalZ DecimalString.
From stdpp Require Import gmap strings list.

Open Scope Z_scope.

(* ===================================================================== *)
(** * Part I: definitions *)
(* ===================================================================== *)

(** ** Python values *)

(** A finite binary floating-point number [mant * 2 ^ expo].  The
    representation is not normalised; [float_of_int] below only produces
    significands of at most 53 bits, as a C double holds. *)
Record float := mkFloat { mant : Z; expo : Z }.

(** The values the extraction library hands over: JSON-like data. *)
#[warnings="-register-all"]
Inductive pyval :=
| PyNone
| PyBool (b : bool)
| PyInt (z : Z)
| PyFloat (x : float)
| PyStr (s : string)
| PyList (l : list pyval)
| PyDict (d : gmap string pyval).

(** [type(v).__name__] *)
Definition type_name (v : pyval) : string :=
  match v with
  | PyNone => "NoneType"
  | PyBool _ => "bool"
  | PyInt _ => "int"
  | PyFloat _ => "float"
  | PyStr _ => "str"
  | PyList _ => "list"
  | PyDict _ => "dict"
  end.

(** Exceptions, all of them instances of Python's [Exception] (what
    [except Exception] catches).  [LibraryError] stands for whatever the
    extraction library raises (DownloadError, network errors, ...); its
    argument is [str(e)]. *)
Inductive exception :=
| KeyError (key : string)
| TypeError (msg : string)
| AttributeError (msg : string)
| OverflowError (msg : string)
| LibraryError (msg : string).

(** [str(e)]; a [KeyError] prints the repr of its key (plain keys only). *)
Definition exc_str (e : exception) : string :=
  match e with
  | KeyError k => "'" +:+ k +:+ "'"
  | TypeError m | AttributeError m | OverflowError m | LibraryError m => m
  end.

Inductive result (A : Type) :=
| Ok (a : A)
| Raise (e : exception).
Arguments Ok {A} a.
Arguments Raise {A} e.

(** The exception monad: [x ← m; k] runs [k] unless [m] raised. *)
#[global] Instance result_ret : MRet result := λ A a, Ok a.
#[global] Instance result_bind : MBind result := λ A B k m,
  match m with
  | Ok a => k a
  | Raise e => Raise e
  end.

(** ** Printing integers *)

(** [str(z)] for an int. *)
Definition str_int (z : Z) : string := NilZero.string_of_int (Z.to_int z).

Fixpoint zeros (n : nat) : string :=
  match n with
  | O => ""
  | S k => String "0"%char (zeros k)
  end.

(** Left-pad with zeros up to [width] characters. *)
Definition zfill (width : nat) (s : string) : string :=
  zeros (width - String.length s) +:+ s.

(** [f"{z:02d}"]: sign-aware zero padding to width 2. *)
Definition format_02d (z : Z) : string :=
  if z <? 0 then "-" +:+ zfill 1 (str_int (Z.abs z)) else zfill 2 (str_int z).

(** ** format_duration *)

Definition format_duration (seconds : Z) : string :=
  if seconds =? 0 then "Unknown duration"
  else
    let hours := seconds `div` 3600 in
    let minutes := (seconds `mod` 3600) `div` 60 in
    let seconds := seconds `mod` 60 in
    if 0 <? hours then
      format_02d hours +:+ ":" +:+ format_02d minutes +:+ ":" +:+ format_02d seconds
    else
      format_02d minutes +:+ ":" +:+ format_02d seconds.

(** What "zero-padded to two digits" means for a natural number, digit by
    digit: used to state the properties of [format_duration]. *)
Definition digit_char (d : Z) : ascii := ascii_of_nat (48 + Z.to_nat d)%nat.

Definition two_digits (n : Z) : string :=
  String (digit_char (n `div` 10)) (String (digit_char (n `mod` 10)) "").

Definition zero_pad2 (n : Z) : string :=
  if n <? 100 then two_digits n else str_int n.

(** ** Floating point, as far as [format_filesize] needs it *)

(** [a / b] rounded to the nearest integer, ties to even ([0 < b]). *)
Definition round_half_even (a b : Z) : Z :=
  let q := a `div` b in
  let r := a `mod` b in
  if 2 * r <? b then q
  else if b <? 2 * r then q + 1
  else if Z.even q then q else q + 1.

(** [float(n)] for an int: correctly rounded to 53 significant bits,
    [OverflowError] when the rounded value does not fit a double. *)
Definition float_of_int (n : Z) : result float :=
  let a := Z.abs n in
  let bits := Z.log2 a + 1 in
  if bits <=? 53 then Ok (mkFloat n 0)
  else
    let sh := bits - 53 in
    let m := round_half_even a (2 ^ sh) in
    if 2 ^ 1024 <=? m * 2 ^ sh
    then Raise (OverflowError "int too large to convert to float")
    else Ok (mkFloat (Z.sgn n * m) sh).

(** The variable [size_bytes] starts as an int and becomes a float at the
    first division. *)
Inductive number :=
| NInt (z : Z)
| NFloat (x : float).

Definition to_float (v : number) : result float :=
  match v with
  | NInt z => float_of_int z
  | NFloat x => Ok x
  end.

(** [v < 1024.0]; Python compares an int with a float exactly. *)
Definition lt_1024 (v : number) : bool :=
  match v with
  | NInt z => z <? 1024
  | NFloat x =>
      if 0 <=? expo x then mant x * 2 ^ expo x <? 1024
      else mant x <? 1024 * 2 ^ (- expo x)
  end.

(** [v / 1024.0]: an int operand is converted first; dividing a double by
    a power of two only lowers its exponent (exact as long as the quotient
    is a normal number, which it is for every value of at least 1024, the
    only ones [format_filesize] divides). *)
Definition div_1024 (v : number) : result float :=
  x ← to_float v;
  Ok (mkFloat (mant x) (expo x - 10)).

(** [f"{v:.1f}"]: the exact binary value, correctly rounded to one decimal
    place with ties to even; an int is converted to a float first. *)
Definition format_1f (v : number) : result string :=
  x ← to_float v;
  let a := Z.abs (mant x) in
  let tenths :=
    if 0 <=? expo x then 10 * a * 2 ^ expo x
    else round_half_even (10 * a) (2 ^ (- expo x)) in
  Ok ((if mant x <? 0 then "-" else "") +:+
      str_int (tenths `div` 10) +:+ "." +:+ str_int (tenths `mod` 10)).

(** ** format_filesize *)

(** The [for unit in [...]] loop with its early [return]; falling out of
    the loop returns the value in TB. *)
Fixpoint filesize_loop (units : list string) (size_bytes : number) : result string :=
  match units with
  | [] => s ← format_1f size_bytes; Ok (s +:+ " TB")
  | unit :: rest =>
      if lt_1024 size_bytes then
        s ← format_1f size_bytes; Ok (s +:+ " " +:+ unit)
      else
        x ← div_1024 size_bytes; filesize_loop rest (NFloat x)
  end.

Definition format_filesize (size_bytes : Z) : result string :=
  if size_bytes =? 0 then Ok "Unknown size"
  else filesize_loop ["B"; "KB"; "MB"; "GB"] (NInt size_bytes).

(** The unit ladder and the rendering of a fraction [num / den] to one
    decimal place, for stating what [format_filesize] computes. *)
Definition unit_ladder : list string := ["B"; "KB"; "MB"; "GB"; "TB"].

Definition one_decimal (num den : Z) : string :=
  let tenths := round_half_even (10 * num) den in
  str_int (tenths `div` 10) +:+ "." +:+ str_int (tenths `mod` 10).

(** How many times a byte count is divided: the first rung of the ladder
    on which the remaining value is below 1024, the last rung otherwise. *)
Definition rung (n : Z) : nat :=
  if n <? 1024 then 0%nat
  else if n <? 1024 ^ 2 then 1%nat
  else if n <? 1024 ^ 3 then 2%nat
  else if n <? 1024 ^ 4 then 3%nat
  else 4%nat.

(** The integer a double holds after [float(n)], for [0 <= n]. *)
Definition nearest_double (n : Z) : Z :=
  let bits := Z.log2 n + 1 in
  if bits <=? 53 then n
  else round_half_even n (2 ^ (bits - 53)) * 2 ^ (bits - 53).

(** The unqualified reading of the ladder: some rung [k] leaves a
    remaining value below 1024, and the function stops at the first such
    rung and renders the value there. *)
Definition stops_below_1024 (n : Z) : Prop :=
  ∃ k : nat, (k ≤ 4)%nat ∧
    n < 1024 ^ (Z.of_nat k + 1) ∧
    (k = 0%nat ∨ 1024 ^ Z.of_nat k ≤ n) ∧
    format_filesize n =
      Ok (one_decimal (nearest_double n) (1024 ^ Z.of_nat k) +:+ " " +:+
          nth k unit_ladder "").

(** ** Regular expressions: the fragment of [re] the validator uses *)

(** Literal characters, concatenation, alternation [r|s] and the optional
    [(r)?].  [Void] matches nothing; the patterns do not use it, the
    derivative does.  Strings are byte strings and the patterns are plain
    ASCII, so matching on bytes and on code points agree. *)
Inductive regex :=
| Void
| Eps
| Chr (c : ascii)
| Cat (r s : regex)
| Alt (r s : regex)
| Opt (r : regex).

(** A literal run of characters. *)
Fixpoint lit (s : string) : regex :=
  match s with
  | EmptyString => Eps
  | String c s' => Cat (Chr c) (lit s')
  end.

Fixpoint nullable (r : regex) : bool :=
  match r with
  | Void => false
  | Eps => true
  | Chr _ => false
  | Cat r s => nullable r && nullable s
  | Alt r s => nullable r || nullable s
  | Opt _ => true
  end.

(** Brzozowski derivative: what is left of [r] after reading [c]. *)
Fixpoint deriv (c : ascii) (r : regex) : regex :=
  match r with
  | Void => Void
  | Eps => Void
  | Chr d => if Ascii.eqb c d then Eps else Void
  | Cat r s =>
      if nullable r then Alt (Cat (deriv c r) s) (deriv c s)
      else Cat (deriv c r) s
  | Alt r s => Alt (deriv c r) (deriv c s)
  | Opt r => deriv c r
  end.

(** Does some prefix of [s] match [r]? *)
Fixpoint match_prefix (r : regex) (s : string) : bool :=
  nullable r ||
  match s with
  | EmptyString => false
  | String c s' => match_prefix (deriv c r) s'
  end.

(** [re.search(r, s)] as a truth value: a match starting at some
    position of [s]. *)
Fixpoint re_search (r : regex) (s : string) : bool :=
  match_prefix r s ||
  match s with
  | EmptyString => false
  | String _ s' => re_search r s'
  end.

(** ** is_valid_youtube_url *)

(** [(https?://)?(www\.)?], the head of all five patterns. *)
Definition scheme_www : regex :=
  Cat (Opt (Cat (lit "http") (Cat (Opt (Chr "s")) (lit "://"))))
      (Opt (lit "www.")).

Definition youtube_patterns : list regex :=
  [ (* (https?://)?(www\.)?(youtube|youtu|youtube-nocookie)\.(com|be)/ *)
    Cat scheme_www
      (Cat (Alt (lit "youtube") (Alt (lit "youtu") (lit "youtube-nocookie")))
         (Cat (Chr ".") (Cat (Alt (lit "com") (lit "be")) (Chr "/"))));
    (* (https?://)?(www\.)?youtu\.be/ *)
    Cat scheme_www (lit "youtu.be/");
    (* (https?://)?(www\.)?youtube\.com/watch\?v= *)
    Cat scheme_www (lit "youtube.com/watch?v=");
    (* (https?://)?(www\.)?youtube\.com/embed/ *)
    Cat scheme_www (lit "youtube.com/embed/");
    (* (https?://)?(www\.)?youtube\.com/v/ *)
    Cat scheme_www (lit "youtube.com/v/") ].

(** The [for] loop returning [True] at the first pattern found. *)
Fixpoint any_pattern (patterns : list regex) (url : string) : bool :=
  match patterns with
  | [] => false
  | pattern :: rest => if re_search pattern url then true else any_pattern rest url
  end.

Definition is_valid_youtube_url (url : string) : bool :=
  any_pattern youtube_patterns url.

(** The host substrings the patterns recognise: a host name of the first
    pattern, a dot, a top-level domain and the slash that follows. *)
Definition recognized_hosts : list string :=
  [ "youtube.com/"; "youtube.be/"; "youtu.com/"; "youtu.be/";
    "youtube-nocookie.com/"; "youtube-nocookie.be/" ].

(** [w] occurs somewhere in [s]. *)
Definition substring_of (w s : string) : Prop :=
  ∃ a b, s = a +:+ w +:+ b.

(** The finite language of a pattern (there is no repetition operator). *)
Fixpoint lang (r : regex) : list string :=
  match r with
  | Void => []
  | Eps => [""]
  | Chr c => [String c ""]
  | Cat r s => u ← lang r; v ← lang s; [u +:+ v]
  | Alt r s => lang r ++ lang s
  | Opt r => "" :: lang r
  end.

(** ** Operations on Python values *)

(** [d.get(key, dflt)] on a dict. *)
Definition dict_get (d : gmap string pyval) (key : string) (dflt : pyval) : pyval :=
  default dflt (d !! key).

(** [d[key]] on a dict. *)
Definition dict_item (d : gmap string pyval) (key : string) : result pyval :=
  match d !! key with
  | Some v => Ok v
  | None => Raise (KeyError key)
  end.

(** What calling [.get] on a value that is not a dict raises. *)
Definition no_get (v : pyval) : exception :=
  AttributeError ("'" +:+ type_name v +:+ "' object has no attribute 'get'").

(** [v != s] for a string literal [s]: equal only to that very string. *)
Definition ne_str (v : pyval) (s : string) : bool :=
  match v with
  | PyStr t => negb (String.eqb t s)
  | _ => true
  end.

(** [v == s] for a string literal [s]. *)
Definition eq_str (v : pyval) (s : string) : bool :=
  match v with
  | PyStr t => String.eqb t s
  | _ => false
  end.

(** [isinstance(v, int)]; [bool] is a subclass of [int]. *)
Definition isinstance_int (v : pyval) : bool :=
  match v with
  | PyInt _ | PyBool _ => true
  | _ => false
  end.

(** [f"{v}"] for an instance of [int]. *)
Definition fstr_int (v : pyval) : string :=
  match v with
  | PyInt z => str_int z
  | PyBool true => "True"
  | PyBool false => "False"
  | _ => ""
  end.

Fixpoint chars (s : string) : list pyval :=
  match s with
  | EmptyString => []
  | String c s' => PyStr (String c "") :: chars s'
  end.

(** The items a [for] loop over [v] visits.  A dict yields its keys (in
    an order the loops below do not depend on: their body raises on every
    key alike). *)
Definition py_iter (v : pyval) : result (list pyval) :=
  match v with
  | PyList l => Ok l
  | PyDict d => Ok (PyStr <$> (map_to_list d).*1)
  | PyStr s => Ok (chars s)
  | _ => Raise (TypeError ("'" +:+ type_name v +:+ "' object is not iterable"))
  end.

(** ** The records built by get_video_info *)

Record video_info := VideoInfo {
  title : pyval;
  duration : pyval;
  uploader : pyval;
  view_count : pyval;
  upload_date : pyval;
  thumbnail : pyval
}.

Record format_option := FormatOption {
  format_id : pyval;
  quality : pyval;
  ext : pyval;
  filesize : pyval;
  type : string
}.

(** The test and the body of the first loop (video + audio).  [None]
    when the rendition is skipped. *)
Definition is_video_audio (d : gmap string pyval) : bool :=
  ne_str (dict_get d "vcodec" PyNone) "none" &&
  ne_str (dict_get d "acodec" PyNone) "none".

Definition video_audio_option (d : gmap string pyval) : result format_option :=
  let quality := dict_get d "format_note" (dict_get d "height" (PyStr "Unknown")) in
  let ext := dict_get d "ext" (PyStr "mp4") in
  let filesize := dict_get d "filesize" (PyInt 0) in
  format_id ← dict_item d "format_id";
  Ok {| format_id := format_id;
        quality := if isinstance_int quality
                   then PyStr (fstr_int quality +:+ "p") else quality;
        ext := ext;
        filesize := filesize;
        type := "video+audio" |}.

Definition video_audio_body (f : pyval) : result (option format_option) :=
  match f with
  | PyDict d =>
      if is_video_audio d then o ← video_audio_option d; Ok (Some o)
      else Ok None
  | _ => Raise (no_get f)
  end.

(** The test and the body of the second loop (audio only). *)
Definition is_audio_only (d : gmap string pyval) : bool :=
  eq_str (dict_get d "vcodec" PyNone) "none" &&
  ne_str (dict_get d "acodec" PyNone) "none".

Definition audio_only_option (d : gmap string pyval) : result format_option :=
  let quality := dict_get d "format_note" (dict_get d "abr" (PyStr "Unknown")) in
  let ext := dict_get d "ext" (PyStr "mp3") in
  let filesize := dict_get d "filesize" (PyInt 0) in
  format_id ← dict_item d "format_id";
  Ok {| format_id := format_id;
        quality := if isinstance_int quality
                   then PyStr (fstr_int quality +:+ "kbps") else quality;
        ext := ext;
        filesize := filesize;
        type := "audio-only" |}.

Definition audio_only_body (f : pyval) : result (option format_option) :=
  match f with
  | PyDict d =>
      if is_audio_only d then o ← audio_only_option d; Ok (Some o)
      else Ok None
  | _ => Raise (no_get f)
  end.

(** A [for f in items] loop appending to [formats]; an exception in the
    body ends it. *)
Fixpoint for_append (body : pyval → result (option format_option))
    (items : list pyval) (formats : list format_option)
    : result (list format_option) :=
  match items with
  | [] => Ok formats
  | f :: rest =>
      o ← body f;
      for_append body rest
        (match o with Some entry => formats ++ [entry] | None => formats end)
  end.

(** Lines 81-120: everything between the library call and the [return],
    on the value [info] the library returned. *)
Definition build_result (info : pyval) : result (video_info * list format_option) :=
  match info with
  | PyDict d =>
      let video_info :=
        {| title := dict_get d "title" (PyStr "Unknown Title");
           duration := dict_get d "duration" (PyInt 0);
           uploader := dict_get d "uploader" (PyStr "Unknown");
           view_count := dict_get d "view_count" (PyInt 0);
           upload_date := dict_get d "upload_date" (PyStr "");
           thumbnail := dict_get d "thumbnail" (PyStr "") |} in
      match d !! "formats" with
      | None => Ok (video_info, [])
      | Some fs =>
          items ← py_iter fs;
          formats ← for_append video_audio_body items [];
          items ← py_iter fs;
          formats ← for_append audio_only_body items formats;
          Ok (video_info, formats)
      end
  | _ => Raise (no_get info)
  end.

(** ** The collaborators: extraction library and page *)

Abbreviation ydl_opts := (gmap string pyval).

(** What the page shows: [st.error(msg)]. *)
Inductive st_event :=
| StError (msg : string).

(** The calls made to the extraction library. *)
Inductive lib_call :=
| ExtractInfo (opts : ydl_opts) (url : string) (download : bool)
| Download (opts : ydl_opts) (urls : list string).

(** The extraction library: an unknown state (network, disk) and its two
    operations, each of which returns or raises.  An operation stands for
    the whole [with yt_dlp.YoutubeDL(opts) as ydl: ydl.op(...)] block. *)
Record YoutubeDL := {
  lib_state : Type;
  extract_info : ydl_opts → string → bool → lib_state → result pyval * lib_state;
  download : ydl_opts → list string → lib_state → result unit * lib_state
}.

Record world (Y : YoutubeDL) := World {
  lib : lib_state Y;
  calls : list lib_call;
  page : list st_event
}.
Arguments World {Y} lib calls page.
Arguments lib {Y} w.
Arguments calls {Y} w.
Arguments page {Y} w.

Definition st_error {Y} (msg : string) (w : world Y) : world Y :=
  World (lib w) (calls w) (page w ++ [StError msg]).

Definition ydl_extract_info {Y} (opts : ydl_opts) (url : string) (dl : bool)
    (w : world Y) : result pyval * world Y :=
  let '(r, l) := extract_info Y opts url dl (lib w) in
  (r, World l (calls w ++ [ExtractInfo opts url dl]) (page w)).

Definition ydl_download {Y} (opts : ydl_opts) (urls : list string)
    (w : world Y) : result unit * world Y :=
  let '(r, l) := download Y opts urls (lib w) in
  (r, World l (calls w ++ [Download opts urls]) (page w)).

(** ** get_video_info *)

(** The [ydl_opts] dictionary of [get_video_info]. *)
Definition quiet_opts : ydl_opts :=
  {[ "quiet" := PyBool true; "no_warnings" := PyBool true ]}.

Definition get_video_info {Y} (url : string) (w : world Y)
    : (option video_info * option (list format_option)) * world Y :=
  let ydl_opts := quiet_opts in
  let '(r, w) := ydl_extract_info ydl_opts url false w in
  match info ← r; build_result info with
  | Ok (video_info, formats) => ((Some video_info, Some formats), w)
  | Raise e =>
      ((None, None), st_error ("Error fetching video info: " +:+ exc_str e) w)
  end.

(** ** download_video *)

(** [os.path.join(a, b)] on POSIX, for a relative [b]. *)
Definition ends_with_slash (a : string) : bool :=
  match String.rev a with
  | String c _ => Ascii.eqb c "/"
  | EmptyString => false
  end.

Definition os_path_join (a b : string) : string :=
  if String.eqb a "" then b
  else if ends_with_slash a then a +:+ b
  else a +:+ "/" +:+ b.

(** The [ydl_opts] dictionary of [download_video]. *)
Definition download_opts (format_id : pyval) (output_path : string) : ydl_opts :=
  {[ "format" := format_id;
     "outtmpl" := PyStr (os_path_join output_path "%(title)s.%(ext)s");
     "noplaylist" := PyBool true ]}.

Definition download_video {Y} (url : string) (format_id : pyval)
    (output_path : string) (w : world Y) : (bool * string) * world Y :=
  let ydl_opts := download_opts format_id output_path in
  let '(r, w) := ydl_download ydl_opts [url] w in
  match r with
  | Ok _ => ((true, "Download completed successfully!"), w)
  | Raise e => ((false, "Download failed: " +:+ exc_str e), w)
  end.

(** ** The two buckets, as [main] separates them *)

(** [[f for f in formats if f['type'] == 'video+audio']] *)
Definition video_formats (formats : list format_option) : list format_option :=
  filter (λ f, type f = "video+audio") formats.

(** [[f for f in formats if f['type'] == 'audio-only']] *)
Definition audio_formats (formats : list format_option) : list format_option :=
  filter (λ f, type f = "audio-only") formats.

(** ** main: the "Get Video Info" button and the choice of a format *)

(** What the page shows: the messages of [main] itself and, through
    [of_event], those of the functions it calls. *)
Inductive notice :=
| Error (msg : string)
| Success (msg : string)
| Warning (msg : string).

Definition of_event (e : st_event) : notice :=
  match e with
  | StError msg => Error msg
  end.

(** [st.session_state]: an attribute is [None] until it is first set. *)
Record session_state := SessionState {
  session_video_info : option video_info;
  session_formats : option (list format_option);
  session_url : option string
}.

Definition empty_session : session_state := SessionState None None None.

(** The running application: the library with the calls made so far, the
    page and the session. *)
Record app (Y : YoutubeDL) := App {
  app_lib : lib_state Y;
  app_calls : list lib_call;
  app_page : list notice;
  session : session_state
}.
Arguments App {Y} app_lib app_calls app_page session.
Arguments app_lib {Y} a.
Arguments app_calls {Y} a.
Arguments app_page {Y} a.
Arguments session {Y} a.

Definition show {Y} (n : notice) (a : app Y) : app Y :=
  App (app_lib a) (app_calls a) (app_page a ++ [n]) (session a).

(** [get_video_info(url)] called from [main]: what it shows goes on the
    page of the application. *)
Definition call_get_video_info {Y} (url : string) (a : app Y)
    : (option video_info * option (list format_option)) * app Y :=
  let '(r, w) := get_video_info url (World (app_lib a) (app_calls a) []) in
  (r, App (lib w) (calls w) (app_page a ++ (of_event <$> page w)) (session a)).

(** Lines 207-222: the body of [if st.button("Get Video Info")].  An
    empty string is false; the dict [video_info] is true whenever it is
    not [None]; the list [formats] is true when it is not [None] and not
    empty. *)
Definition get_info_clicked {Y} (url : string) (a : app Y) : app Y :=
  if String.eqb url "" then
    show (Error "Please enter a YouTube URL!") a
  else if negb (is_valid_youtube_url url) then
    show (Error "Please enter a valid YouTube URL!") a
  else
    let '((video_info, formats), a) := call_get_video_info url a in
    match video_info, formats with
    | Some info, Some (f :: fs) =>
        show (Success "Video information fetched successfully!")
          (App (app_lib a) (app_calls a) (app_page a)
               (SessionState (Some info) (Some (f :: fs)) (Some url)))
    | _, _ =>
        show (Error "Failed to fetch video information. Please check the URL and try again.") a
    end.

(** The truth value of a list: false when empty. *)
Definition list_true {A} (l : list A) : bool :=
  match l with
  | [] => false
  | _ :: _ => true
  end.

(** Lines 253-263: the options offered for the chosen [format_type]. *)
Definition formats_to_show (format_type : string) (formats : list format_option)
    : list format_option :=
  let video_formats := video_formats formats in
  let audio_formats := audio_formats formats in
  if String.eqb format_type "Video + Audio" && list_true video_formats
  then video_formats
  else if String.eqb format_type "Audio Only" && list_true audio_formats
  then audio_formats
  else [].

(** ** Vocabulary of the specification *)

Inductive kind :=
| VideoAudio
| AudioOnly.

#[global] Instance kind_eq_dec : EqDecision kind.
Proof. solve_decision. Defined.

(** The rendition reports the codec under [key] as the string "none". *)
Definition codec_none (d : gmap string pyval) (key : string) : bool :=
  match d !! key with
  | Some (PyStr s) => String.eqb s "none"
  | _ => false
  end.

(** The kind of a rendition in the words of the specification: video
    plus audio when neither codec is "none", audio only when the video
    codec is "none" and the audio codec is not, no kind otherwise. *)
Definition classify (d : gmap string pyval) : option kind :=
  if negb (codec_none d "vcodec") && negb (codec_none d "acodec") then Some VideoAudio
  else if codec_none d "vcodec" && negb (codec_none d "acodec") then Some AudioOnly
  else None.

(** The value a quality label is made from: the descriptive note when the
    rendition has one, otherwise the [fallback] field, otherwise
    "Unknown". *)
Definition chosen_quality (d : gmap string pyval) (fallback : string) : pyval :=
  match d !! "format_note" with
  | Some note => note
  | None =>
      match d !! fallback with
      | Some v => v
      | None => PyStr "Unknown"
      end
  end.

(** A number, of either numeric type. *)
Definition is_numeric (v : pyval) : bool :=
  match v with
  | PyInt _ | PyFloat _ => true
  | _ => false
  end.

(** The label carries the given unit suffix. *)
Definition has_suffix (label : pyval) (suffix : string) : Prop :=
  ∃ s, label = PyStr (s +:+ suffix).

(** The reading of the audio label in which every numeric fallback gets
    the suffix: for a rendition without note, "kbps" is appended exactly
    when the average bitrate is a number. *)
Definition kbps_iff_numeric (d : gmap string pyval) : Prop :=
  d !! "format_note" = None →
  ∀ entry, audio_only_option d = Ok entry →
    (is_numeric (dict_get d "abr" (PyStr "Unknown")) = true ↔
     has_suffix (quality entry) "kbps").

(** A rendition both loops get through: a dict, with a format id if one
    of the two tests selects it. *)
Definition rendition_ok (f : pyval) : Prop :=
  ∃ d, f = PyDict d ∧
       (is_video_audio d = true ∨ is_audio_only d = true →
        is_Some (d !! "format_id")).

(** A record the processing after the library call gets through: it has
    no formats, or formats that can be iterated and are all fine. *)
Definition formats_ok (info : gmap string pyval) : Prop :=
  match info !! "formats" with
  | None => True
  | Some fs => ∃ items, py_iter fs = Ok items ∧ Forall rendition_ok items
  end.

(** The session holds nothing, or the three results of one successful
    fetch: a non-empty, accepted URL and the VideoInfo and non-empty
    format list that [get_video_info] returned for it. *)
Definition session_ok (Y : YoutubeDL) (s : session_state) : Prop :=
  s = empty_session ∨
  ∃ info f fs url (w w' : world Y),
    s = SessionState (Some info) (Some (f :: fs)) (Some url) ∧
    url ≠ "" ∧ is_valid_youtube_url url = true ∧
    get_video_info url w = ((Some info, Some (f :: fs)), w').

(** Pressing the button once for each of the given inputs, in turn. *)
Definition clicks {Y} (urls : list string) (a : app Y) : app Y :=
  foldl (λ a url, get_info_clicked url a) a urls.

(** Reading a decimal numeral back, and strings without a colon: used to
    tell the fields of a formatted duration apart. *)
Definition decimal_value (s : string) : option Z :=
  Z.of_int <$> NilZero.int_of_string s.

Fixpoint colon_free (s : string) : bool :=
  match s with
  | EmptyString => true
  | String c s' => negb (Ascii.eqb c ":") && colon_free s'
  end.

(** ** Test doubles: a library with a scripted answer *)

(** A library that answers every call the same way and counts them. *)
Definition scripted (info : result pyval) (dl : result unit) : YoutubeDL :=
  {| lib_state := nat;
     extract_info := λ _ _ _ n, (info, S n);
     download := λ _ _ n, (dl, S n) |}.

Definition fresh (Y : YoutubeDL) (l : lib_state Y) : world Y := World l [] [].

(** Sample renditions as the library reports them, and a record that
    holds them. *)
Definition sample_video : gmap string pyval :=
  {[ "format_id" := PyStr "22"; "vcodec" := PyStr "avc1.64001F";
     "acodec" := PyStr "mp4a.40.2"; "ext" := PyStr "mp4";
     "height" := PyInt 720; "filesize" := PyInt 5000000 ]}.

Definition sample_audio : gmap string pyval :=
  {[ "format_id" := PyStr "139"; "vcodec" := PyStr "none";
     "acodec" := PyStr "mp4a.40.5"; "ext" := PyStr "m4a";
     "abr" := PyInt 128; "filesize" := PyInt 2000000 ]}.

(** An audio rendition whose average bitrate is the float 129.5. *)
Definition sample_audio_float : gmap string pyval :=
  {[ "format_id" := PyStr "140"; "vcodec" := PyStr "none";
     "acodec" := PyStr "mp4a.40.2"; "ext" := PyStr "m4a";
     "abr" := PyFloat (mkFloat 259 (-1)) ]}.

(** A rendition without any video-codec field. *)
Definition sample_no_vcodec : gmap string pyval :=
  {[ "format_id" := PyStr "251"; "acodec" := PyStr "opus";
     "format_note" := PyStr "medium"; "ext" := PyStr "webm" ]}.

Definition sample_formats : list (gmap string pyval) :=
  [sample_audio; sample_video; sample_no_vcodec].

Definition sample_info : gmap string pyval :=
  {[ "title" := PyStr "Sample"; "duration" := PyInt 125;
     "formats" := PyList (PyDict <$> sample_formats) ]}.

(** A record whose only rendition is the one with the float bitrate. *)
Definition float_bitrate_info : gmap string pyval :=
  {[ "title" := PyStr "Sample";
     "formats" := PyList [PyDict sample_audio_float] ]}.

Definition float_library : YoutubeDL :=
  scripted (Ok (PyDict float_bitrate_info)) (Ok ()).

(** A record with a rendition that passes the first test but carries no
    format id. *)
Definition no_id_info : gmap string pyval :=
  {[ "title" := PyStr "Sample";
     "formats" := PyList [PyDict {[ "vcodec" := PyStr "avc1.64001F";
                                    "acodec" := PyStr "mp4a.40.2" ]}] ]}.

Definition no_id_library : YoutubeDL :=
  scripted (Ok (PyDict no_id_info)) (Ok ()).

(** A record whose only rendition has a video track and no audio. *)
Definition video_only_formats : list (gmap string pyval) :=
  [ {[ "format_id" := PyStr "137"; "vcodec" := PyStr "avc1.640028";
       "acodec" := PyStr "none"; "height" := PyInt 1080 ]} ].

Definition video_only_info : gmap string pyval :=
  {[ "title" := PyStr "Sample";
     "formats" := PyList (PyDict <$> video_only_formats) ]}.

Definition video_only_library : YoutubeDL :=
  scripted (Ok (PyDict video_only_info)) (Ok ()).

(** An application that has just been started. *)
Definition started (Y : YoutubeDL) (l : lib_state Y) : app Y :=
  App l [] [] empty_session.

Definition sample_library : YoutubeDL :=
  scripted (Ok (PyDict sample_info)) (Ok ()).

Definition failing_library : YoutubeDL :=
  scripted (Raise (LibraryError "ERROR: Video unavailable"))
           (Raise (LibraryError "ERROR: Video unavailable")).

(* ===================================================================== *)
(** * Part II: properties *)
(* ===================================================================== *)

(** ** Decimal numerals *)

Lemma str_int_length_ge2 (z : Z) : 10 ≤ z → (2 ≤ String.length (str_int z))%nat.
Proof.
  intros Hz. destruct z as [|p|p]; try lia.
  unfold str_int. cbn [Z.to_int NilZero.string_of_int].
  pose proof (DecimalPos.Unsigned.of_to p) as Hp.
  destruct (Pos.to_uint p) as [|d|d|d|d|d|d|d|d|d|d]; cbn in Hp; try discriminate;
    (destruct d;
     [cbn in Hp; first [discriminate | injection Hp as Hp; lia] | cbn; lia ..]).
Qed.

Lemma format_02d_small (z : Z) : 0 ≤ z < 100 → format_02d z = two_digits z.
Proof.
  intros Hz.
  assert (∃ n : nat, (n < 100)%nat ∧ z = Z.of_nat n) as (n & Hn & ->)
    by (exists (Z.to_nat z); lia).
  clear Hz. do 100 (destruct n as [|n]; [vm_compute; reflexivity|]). lia.
Qed.

Lemma format_02d_large (z : Z) : 100 ≤ z → format_02d z = str_int z.
Proof.
  intros Hz. unfold format_02d, zfill.
  destruct (Z.ltb_spec z 0); [lia|].
  assert (2 ≤ String.length (str_int z))%nat as Hlen by (apply str_int_length_ge2; lia).
  replace (2 - String.length (str_int z))%nat with 0%nat by lia. reflexivity.
Qed.

Lemma format_02d_zero_pad2 (z : Z) : 0 ≤ z → format_02d z = zero_pad2 z.
Proof.
  intros Hz. unfold zero_pad2. destruct (Z.ltb_spec z 100).
  - apply format_02d_small; lia.
  - apply format_02d_large; lia.
Qed.

(** ** format_duration *)

(** C6: for a non-negative number of seconds, [format_duration] gives
    "Unknown duration" for 0, minutes and seconds as two zero-padded
    digits each below one hour, and hours, minutes and seconds from one
    hour on (the hours zero-padded to two digits); 75 gives "01:15" and
    3661 gives "01:01:01". *)
Theorem format_duration_cases (seconds : Z) :
  0 ≤ seconds →
  (seconds = 0 → format_duration seconds = "Unknown duration") ∧
  (0 < seconds < 3600 →
     format_duration seconds =
       two_digits (seconds `div` 60) +:+ ":" +:+ two_digits (seconds `mod` 60)) ∧
  (3600 ≤ seconds →
     format_duration seconds =
       zero_pad2 (seconds `div` 3600) +:+ ":" +:+
       two_digits ((seconds `div` 60) `mod` 60) +:+ ":" +:+
       two_digits (seconds `mod` 60)) ∧
  format_duration 75 = "01:15" ∧
  format_duration 3661 = "01:01:01".
Proof.
  intros Hs.
  assert (0 ≤ seconds `mod` 60 < 100) as Hsec
    by (pose proof (Z.mod_pos_bound seconds 60); lia).
  repeat split.
  - intros ->. reflexivity.
  - intros Hlt. unfold format_duration.
    destruct (Z.eqb_spec seconds 0); [lia|].
    assert (seconds `div` 3600 = 0) as -> by (apply Z.div_small; lia).
    cbn [Z.ltb Z.compare]. rewrite (Z.mod_small seconds 3600) by lia.
    rewrite !format_02d_small; [reflexivity | lia |].
    split; [apply Z.div_pos; lia | apply Z.div_lt_upper_bound; lia].
  - intros Hge. unfold format_duration.
    destruct (Z.eqb_spec seconds 0); [lia|].
    assert (0 < seconds `div` 3600) as Hh
      by (apply Z.div_str_pos; lia).
    destruct (Z.ltb_spec 0 (seconds `div` 3600)); [|lia].
    assert ((seconds `mod` 3600) `div` 60 = (seconds `div` 60) `mod` 60) as ->.
    { replace 3600 with (60 * 60) by reflexivity.
      rewrite Z.rem_mul_r by lia.
      rewrite (Z.mul_comm 60 (_ `mod` 60)), Z.div_add by lia.
      rewrite (Z.div_small (seconds `mod` 60)) by (apply Z.mod_pos_bound; lia).
      lia. }
    rewrite (format_02d_zero_pad2 (seconds `div` 3600)) by lia.
    rewrite !format_02d_small; [reflexivity | lia |].
    pose proof (Z.mod_pos_bound (seconds `div` 60) 60); lia.
Qed.

Lemma format_duration_cases_witness :
  0 ≤ 3725 ∧ format_duration 3725 = "01:02:05".
Proof.
  split; [lia|].
  destruct (format_duration_cases 3725 ltac:(lia)) as (_ & _ & H & _).
  rewrite H by lia. vm_compute. reflexivity.
Defined.

(** ** Rounding and conversion to a double *)

Lemma round_half_even_scale (a b c : Z) :
  0 < b → 0 < c → round_half_even (a * c) (b * c) = round_half_even a b.
Proof.
  intros Hb Hc. unfold round_half_even.
  rewrite Z.div_mul_cancel_r, Z.mul_mod_distr_r by lia.
  assert ((2 * (a `mod` b * c) <? b * c) = (2 * (a `mod` b) <? b)) as ->.
  { destruct (Z.ltb_spec (2 * (a `mod` b)) b),
      (Z.ltb_spec (2 * (a `mod` b * c)) (b * c)); try reflexivity; nia. }
  assert ((b * c <? 2 * (a `mod` b * c)) = (b <? 2 * (a `mod` b))) as ->.
  { destruct (Z.ltb_spec b (2 * (a `mod` b))),
      (Z.ltb_spec (b * c) (2 * (a `mod` b * c))); try reflexivity; nia. }
  reflexivity.
Qed.

Lemma round_half_even_one (a : Z) : round_half_even a 1 = a.
Proof.
  unfold round_half_even. rewrite Z.div_1_r, Z.mod_1_r. reflexivity.
Qed.

Lemma round_half_even_bounds (a b : Z) :
  0 < b → a `div` b ≤ round_half_even a b ≤ a `div` b + 1.
Proof.
  intros Hb. unfold round_half_even.
  repeat match goal with |- context [if ?c then _ else _] => destruct c end; lia.
Qed.

Lemma nearest_double_small (n : Z) : 0 ≤ n < 2 ^ 53 → nearest_double n = n.
Proof.
  intros Hn. unfold nearest_double.
  destruct (Z.leb_spec (Z.log2 n + 1) 53) as [|Hbits]; [reflexivity|].
  assert (n = 0 ∨ 0 < n) as [->|Hpos] by lia; [cbn in Hbits; lia|].
  pose proof (Z.log2_lt_pow2 n 53 Hpos) as [Hlog _]. lia.
Qed.

Lemma nearest_double_large (n : Z) : 2 ^ 53 ≤ n → 2 ^ 53 ≤ nearest_double n.
Proof.
  intros Hn. unfold nearest_double.
  assert (53 ≤ Z.log2 n) as Hlog by (apply Z.log2_le_pow2; lia).
  destruct (Z.leb_spec (Z.log2 n + 1) 53); [lia|].
  set (sh := Z.log2 n + 1 - 53).
  assert (0 < sh) as Hsh by (unfold sh; lia).
  assert (2 ^ Z.log2 n ≤ n) as Hlow by (apply Z.log2_spec; lia).
  assert (Z.log2 n = 52 + sh) as Heq by (unfold sh; lia).
  rewrite Heq, Z.pow_add_r in Hlow by lia.
  assert (0 < 2 ^ sh) as Hpow by (apply Z.pow_pos_nonneg; lia).
  assert (2 ^ 52 ≤ n `div` 2 ^ sh) as Hq by (apply Z.div_le_lower_bound; lia).
  pose proof (round_half_even_bounds n (2 ^ sh) Hpow) as [Hr _].
  assert (2 ≤ 2 ^ sh) as H2
    by (change 2 with (2 ^ 1) at 1; apply Z.pow_le_mono_r; lia).
  change (2 ^ 53) with (2 ^ 52 * 2). nia.
Qed.

(** [float(n)] holds [nearest_double n] whenever that is below [2^1024]. *)
Lemma float_of_int_value (n : Z) :
  0 ≤ n → nearest_double n < 2 ^ 1024 →
  ∃ m sh, float_of_int n = Ok (mkFloat m sh) ∧ 0 ≤ m ∧ 0 ≤ sh ∧
          m * 2 ^ sh = nearest_double n.
Proof.
  intros Hn Hfin. unfold float_of_int, nearest_double in *.
  rewrite Z.abs_eq by lia.
  destruct (Z.leb_spec (Z.log2 n + 1) 53) as [|Hbits].
  - exists n, 0. rewrite Z.mul_1_r. auto with lia.
  - set (sh := Z.log2 n + 1 - 53) in *.
    assert (0 < 2 ^ sh) as Hpow by (apply Z.pow_pos_nonneg; lia).
    pose proof (round_half_even_bounds n (2 ^ sh) Hpow) as [Hr _].
    assert (0 ≤ n `div` 2 ^ sh) by (apply Z.div_pos; lia).
    destruct (Z.leb_spec (2 ^ 1024) (round_half_even n (2 ^ sh) * 2 ^ sh)); [lia|].
    assert (0 < n) as Hpos by (destruct (Z.eq_dec n 0) as [->|]; [cbn in Hbits|]; lia).
    rewrite (Z.sgn_pos n Hpos), Z.mul_1_l.
    exists (round_half_even n (2 ^ sh)), sh. repeat split; lia.
Qed.

(** ** format_filesize *)

(** Comparing with 1024 after [j] divisions of the double [m * 2^sh]. *)
Lemma lt_1024_scaled (m sh j : Z) :
  0 ≤ sh → 0 ≤ j →
  lt_1024 (NFloat (mkFloat m (sh - 10 * j))) = (m * 2 ^ sh <? 1024 ^ (j + 1)).
Proof.
  intros Hsh Hj. cbn [lt_1024 mant expo].
  assert (1024 ^ (j + 1) = 1024 * 2 ^ (10 * j)) as ->.
  { rewrite Z.pow_add_r, Z.pow_1_r by lia. change 1024 with (2 ^ 10) at 1.
    rewrite <- Z.pow_mul_r by lia. lia. }
  destruct (Z.leb_spec 0 (sh - 10 * j)) as [Hpos|Hneg].
  - replace sh with ((sh - 10 * j) + 10 * j) at 2 by lia.
    rewrite Z.pow_add_r by lia.
    assert (0 < 2 ^ (10 * j)) by (apply Z.pow_pos_nonneg; lia).
    destruct (Z.ltb_spec (m * 2 ^ (sh - 10 * j)) 1024),
      (Z.ltb_spec (m * (2 ^ (sh - 10 * j) * 2 ^ (10 * j))) (1024 * 2 ^ (10 * j)));
      try reflexivity; nia.
  - replace (10 * j) with ((- (sh - 10 * j)) + sh) at 2 by lia.
    rewrite Z.pow_add_r by lia.
    assert (0 < 2 ^ sh) by (apply Z.pow_pos_nonneg; lia).
    destruct (Z.ltb_spec m (1024 * 2 ^ (- (sh - 10 * j)))),
      (Z.ltb_spec (m * 2 ^ sh) (1024 * (2 ^ (- (sh - 10 * j)) * 2 ^ sh)));
      try reflexivity; nia.
Qed.

(** Rendering after [j] divisions of the double [m * 2^sh]. *)
Lemma format_1f_scaled (m sh j : Z) :
  0 ≤ m → 0 ≤ sh → 0 ≤ j →
  format_1f (NFloat (mkFloat m (sh - 10 * j))) =
    Ok (one_decimal (m * 2 ^ sh) (1024 ^ j)).
Proof.
  intros Hm Hsh Hj. unfold format_1f, one_decimal. cbn [to_float mbind result_bind mant expo].
  destruct (Z.ltb_spec m 0); [lia|]. rewrite Z.abs_eq by lia.
  assert (1024 ^ j = 2 ^ (10 * j)) as ->
    by (change 1024 with (2 ^ 10); rewrite <- Z.pow_mul_r by lia; reflexivity).
  assert (round_half_even (10 * (m * 2 ^ sh)) (2 ^ (10 * j)) =
          if 0 <=? sh - 10 * j then 10 * m * 2 ^ (sh - 10 * j)
          else round_half_even (10 * m) (2 ^ (- (sh - 10 * j)))) as ->;
    [|reflexivity].
  destruct (Z.leb_spec 0 (sh - 10 * j)) as [Hpos|Hneg].
  - replace sh with ((sh - 10 * j) + 10 * j) at 1 by lia.
    rewrite Z.pow_add_r by lia.
    assert (0 < 2 ^ (10 * j)) by (apply Z.pow_pos_nonneg; lia).
    replace (10 * (m * (2 ^ (sh - 10 * j) * 2 ^ (10 * j))))
      with ((10 * m * 2 ^ (sh - 10 * j)) * 2 ^ (10 * j)) by lia.
    rewrite <- (Z.mul_1_l (2 ^ (10 * j))) at 2.
    rewrite round_half_even_scale by lia. apply round_half_even_one.
  - replace (10 * j) with ((- (sh - 10 * j)) + sh) at 1 by lia.
    rewrite Z.pow_add_r by lia.
    assert (0 < 2 ^ sh) by (apply Z.pow_pos_nonneg; lia).
    assert (0 < 2 ^ (- (sh - 10 * j))) by (apply Z.pow_pos_nonneg; lia).
    replace (10 * (m * 2 ^ sh)) with ((10 * m) * 2 ^ sh) by lia.
    apply round_half_even_scale; lia.
Qed.

Lemma nearest_double_ltb (n t : Z) :
  0 ≤ n → t ≤ 2 ^ 53 → (nearest_double n <? t) = (n <? t).
Proof.
  intros Hn Ht. destruct (Z.lt_ge_cases n (2 ^ 53)) as [Hsmall|Hlarge].
  - rewrite nearest_double_small by lia. reflexivity.
  - pose proof (nearest_double_large n Hlarge).
    destruct (Z.ltb_spec (nearest_double n) t), (Z.ltb_spec n t); lia || reflexivity.
Qed.

(** One turn of the loop on a value that is already a float. *)
Lemma filesize_loop_step (unit : string) (rest : list string) (m sh j : Z) :
  0 ≤ m → 0 ≤ sh → 0 ≤ j →
  filesize_loop (unit :: rest) (NFloat (mkFloat m (sh - 10 * j))) =
    if m * 2 ^ sh <? 1024 ^ (j + 1)
    then Ok (one_decimal (m * 2 ^ sh) (1024 ^ j) +:+ " " +:+ unit)
    else filesize_loop rest (NFloat (mkFloat m (sh - 10 * (j + 1)))).
Proof.
  intros Hm Hsh Hj. cbn [filesize_loop].
  rewrite lt_1024_scaled, format_1f_scaled by lia.
  destruct (m * 2 ^ sh <? 1024 ^ (j + 1)); [reflexivity|].
  cbn. do 3 f_equal. lia.
Qed.

(** The first turn, on the int the function was given. *)
Lemma filesize_loop_first (unit : string) (rest : list string) (n m sh : Z) :
  0 ≤ m → 0 ≤ sh → float_of_int n = Ok (mkFloat m sh) →
  filesize_loop (unit :: rest) (NInt n) =
    if n <? 1024
    then Ok (one_decimal (m * 2 ^ sh) (1024 ^ 0) +:+ " " +:+ unit)
    else filesize_loop rest (NFloat (mkFloat m (sh - 10 * 1))).
Proof.
  intros Hm Hsh Hfl. cbn [filesize_loop lt_1024].
  destruct (n <? 1024).
  - pose proof (format_1f_scaled m sh 0 Hm Hsh ltac:(lia)) as Hfmt.
    replace (sh - 10 * 0) with sh in Hfmt by lia.
    unfold format_1f in *. cbn [to_float] in *. rewrite Hfl, Hfmt. reflexivity.
  - unfold div_1024. cbn [to_float]. rewrite Hfl. reflexivity.
Qed.

Lemma filesize_loop_last (m sh j : Z) :
  0 ≤ m → 0 ≤ sh → 0 ≤ j →
  filesize_loop [] (NFloat (mkFloat m (sh - 10 * j))) =
    Ok (one_decimal (m * 2 ^ sh) (1024 ^ j) +:+ " TB").
Proof.
  intros Hm Hsh Hj. cbn [filesize_loop]. rewrite format_1f_scaled by lia. reflexivity.
Qed.

(** The rung the loop stops on, and what it returns there. *)
Lemma format_filesize_rung (n : Z) (k : nat) :
  0 < n → nearest_double n < 2 ^ 1024 →
  (k ≤ 4)%nat →
  (k = 0%nat ∨ 1024 ^ Z.of_nat k ≤ n) →
  (n < 1024 ^ (Z.of_nat k + 1) ∨ k = 4%nat) →
  format_filesize n =
    Ok (one_decimal (nearest_double n) (1024 ^ Z.of_nat k) +:+ " " +:+
        nth k unit_ladder "").
Proof.
  intros Hn Hfin Hk Hlow Hhigh.
  destruct (float_of_int_value n ltac:(lia) Hfin) as (m & sh & Hfl & Hm & Hsh & Hval).
  unfold format_filesize. destruct (Z.eqb_spec n 0); [lia|].
  rewrite (filesize_loop_first _ _ n m sh Hm Hsh Hfl).
  rewrite !filesize_loop_step, filesize_loop_last by lia.
  rewrite Hval, !nearest_double_ltb by (try lia; vm_compute; discriminate).
  change (1 + 1 + 1 + 1) with 4. change (1 + 1 + 1) with 3. change (1 + 1) with 2.
  destruct k as [|[|[|[|[|k]]]]]; [..|lia];
    cbn [nth unit_ladder Z.of_nat Pos.of_succ_nat Pos.succ Z.add Pos.add] in *;
    repeat match goal with
    | |- context [?a <? ?b] => destruct (Z.ltb_spec a b)
    end; try reflexivity; exfalso; lia.
Qed.

(** Byte counts below [2^53] are held exactly. *)
Lemma format_filesize_exact (n : Z) (k : nat) :
  0 < n < 2 ^ 53 → (k ≤ 4)%nat →
  (k = 0%nat ∨ 1024 ^ Z.of_nat k ≤ n) →
  (n < 1024 ^ (Z.of_nat k + 1) ∨ k = 4%nat) →
  format_filesize n =
    Ok (one_decimal n (1024 ^ Z.of_nat k) +:+ " " +:+ nth k unit_ladder "").
Proof.
  intros Hn Hk Hlow Hhigh.
  assert (nearest_double n = n) as Heq by (apply nearest_double_small; lia).
  assert (nearest_double n < 2 ^ 1024) as Hfin.
  { rewrite Heq. apply Z.lt_trans with (2 ^ 53); [lia|]. vm_compute. reflexivity. }
  rewrite (format_filesize_rung n k) by (assumption || lia).
  rewrite Heq. reflexivity.
Qed.

(** Beyond the largest double the conversion, and with it the function,
    raises. *)
Lemma format_filesize_overflow :
  format_filesize (2 ^ 1024) =
    Raise (OverflowError "int too large to convert to float").
Proof. vm_compute. reflexivity. Qed.

(** C5 (amended): a positive byte count that converts to a double is
    divided by 1024 [k] times, where rung [k] of B, KB, MB, GB, TB is the
    first on which the remaining value is below 1024, or TB when no rung
    is; the result is the remaining value of the double, rendered to one
    decimal place, followed by the unit.  0 gives "Unknown size", 500
    gives "500.0 B", 2048 gives "2.0 KB" and 1048576 gives "1.0 MB". *)
Theorem format_filesize_ladder (n : Z) (k : nat) :
  0 < n → nearest_double n < 2 ^ 1024 →
  (k ≤ 4)%nat →
  (k = 0%nat ∨ 1024 ^ Z.of_nat k ≤ n) →
  (n < 1024 ^ (Z.of_nat k + 1) ∨ k = 4%nat) →
  format_filesize n =
    Ok (one_decimal (nearest_double n) (1024 ^ Z.of_nat k) +:+ " " +:+
        nth k unit_ladder "") ∧
  format_filesize 0 = Ok "Unknown size" ∧
  format_filesize 500 = Ok "500.0 B" ∧
  format_filesize 2048 = Ok "2.0 KB" ∧
  format_filesize 1048576 = Ok "1.0 MB".
Proof.
  intros Hn Hfin Hk Hlow Hhigh.
  split; [|repeat split; vm_compute; reflexivity].
  apply format_filesize_rung; assumption.
Qed.

Lemma format_filesize_ladder_witness :
  0 < 1536 ∧ nearest_double 1536 < 2 ^ 1024 ∧ (1 ≤ 4)%nat ∧
  (1%nat = 0%nat ∨ 1024 ^ Z.of_nat 1 ≤ 1536) ∧
  (1536 < 1024 ^ (Z.of_nat 1 + 1) ∨ 1%nat = 4%nat) ∧
  format_filesize 1536 = Ok "1.5 KB".
Proof.
  assert (0 < 1536) as H1 by lia.
  assert (nearest_double 1536 < 2 ^ 1024) as H2 by (vm_compute; reflexivity).
  assert (1 ≤ 4)%nat as H3 by lia.
  assert (1%nat = 0%nat ∨ 1024 ^ Z.of_nat 1 ≤ 1536) as H4 by (right; vm_compute; discriminate).
  assert (1536 < 1024 ^ (Z.of_nat 1 + 1) ∨ 1%nat = 4%nat) as H5 by (left; vm_compute; reflexivity).
  refine (conj H1 (conj H2 (conj H3 (conj H4 (conj H5 _))))).
  destruct (format_filesize_ladder 1536 1 H1 H2 H3 H4 H5) as [H _].
  rewrite H. vm_compute. reflexivity.
Defined.

(** C5 as stated fails from one pebibyte on: after four divisions the
    ladder is used up and the value is returned in TB although it is not
    below 1024. *)
Lemma format_filesize_stops_at_TB :
  format_filesize (1024 ^ 5) = Ok "1024.0 TB" ∧ ¬ stops_below_1024 (1024 ^ 5).
Proof.
  split; [vm_compute; reflexivity|].
  intros (k & Hk & Hlt & _).
  destruct k as [|[|[|[|[|k]]]]]; [..|lia]; vm_compute in Hlt; discriminate.
Qed.

(** ** Strings *)

Lemma append_cons (x : ascii) (a b : string) :
  String x a +:+ b = String x (a +:+ b).
Proof. reflexivity. Qed.

Lemma append_empty_l (a : string) : "" +:+ a = a.
Proof. reflexivity. Qed.

Lemma append_assoc (a b c : string) : (a +:+ b) +:+ c = a +:+ b +:+ c.
Proof.
  induction a as [|x a IH]; [reflexivity|]. by rewrite !append_cons, IH.
Qed.

Lemma append_empty_r (a : string) : a +:+ "" = a.
Proof.
  induction a as [|x a IH]; [reflexivity|]. by rewrite append_cons, IH.
Qed.

Lemma substring_of_trans (u v w : string) :
  substring_of u v → substring_of v w → substring_of u w.
Proof.
  intros (a & b & ->) (c & d & ->). exists (c +:+ a), (b +:+ d).
  by rewrite !append_assoc.
Qed.

(** ** Regular expressions: the matcher decides the language *)

Lemma lang_cat (r s : regex) (w : string) :
  w ∈ lang (Cat r s) ↔ ∃ u v, w = u +:+ v ∧ u ∈ lang r ∧ v ∈ lang s.
Proof.
  cbn [lang]. rewrite list_elem_of_bind. split.
  - intros (u & Hw & Hu). apply list_elem_of_bind in Hw as (v & Hw & Hv).
    apply list_elem_of_singleton in Hw. eauto.
  - intros (u & v & -> & Hu & Hv). exists u. split; [|done].
    apply list_elem_of_bind. exists v. split; [|done].
    by apply list_elem_of_singleton.
Qed.

Lemma nullable_lang (r : regex) : nullable r = true ↔ "" ∈ lang r.
Proof.
  induction r as [| |c|r IHr s IHs|r IHr s IHs|r IHr]; cbn [nullable].
  - cbn. rewrite elem_of_nil. naive_solver.
  - cbn. rewrite list_elem_of_singleton. naive_solver.
  - cbn. rewrite list_elem_of_singleton. naive_solver.
  - rewrite andb_true_iff, IHr, IHs, lang_cat. split.
    + intros [Hr Hs]. by exists "", "".
    + intros (u & v & Huv & Hu & Hv). destruct u; [|discriminate].
      rewrite append_empty_l in Huv. by subst v.
  - rewrite orb_true_iff, IHr, IHs. cbn. by rewrite elem_of_app.
  - cbn. split; [intros _; apply list_elem_of_here | done].
Qed.

Lemma deriv_lang (c : ascii) (r : regex) (w : string) :
  w ∈ lang (deriv c r) ↔ String c w ∈ lang r.
Proof.
  revert w. induction r as [| |d|r IHr s IHs|r IHr s IHs|r IHr]; intros w; cbn [deriv].
  - cbn. by rewrite !elem_of_nil.
  - cbn. rewrite elem_of_nil, list_elem_of_singleton. naive_solver.
  - destruct (Ascii.eqb_spec c d) as [->|Hne]; cbn.
    + rewrite !list_elem_of_singleton. split; [by intros -> | by intros [= ->]].
    + rewrite elem_of_nil, list_elem_of_singleton.
      split; [done | intros [= -> _]; done].
  - assert (w ∈ lang (Cat (deriv c r) s) ↔
            ∃ u v, String c w = String c u +:+ v ∧ String c u ∈ lang r ∧ v ∈ lang s)
      as Hleft.
    { rewrite lang_cat. split.
      - intros (u & v & -> & Hu & Hv). exists u, v. by rewrite <- IHr.
      - intros (u & v & [= ->] & Hu & Hv). exists u, v. by rewrite IHr. }
    rewrite (lang_cat r s). destruct (nullable r) eqn:Hnull.
    + cbn [lang]. rewrite elem_of_app. fold (lang (Cat (deriv c r) s)).
      rewrite Hleft, IHs. apply nullable_lang in Hnull. split.
      * intros [(u & v & Hw & Hu & Hv)|Hw]; [by eauto|].
        by exists "", (String c w).
      * intros (u & v & Hw & Hu & Hv). destruct u as [|x u].
        -- right. rewrite append_empty_l in Hw. by subst v.
        -- left. injection Hw as -> ->. by exists u, v.
    + rewrite Hleft. split.
      * intros (u & v & Hw & Hu & Hv). eauto.
      * intros (u & v & Hw & Hu & Hv). destruct u as [|x u].
        -- apply nullable_lang in Hu. congruence.
        -- injection Hw as -> ->. by exists u, v.
  - cbn [lang]. by rewrite !elem_of_app, IHr, IHs.
  - cbn [lang]. rewrite elem_of_cons, IHr. split; [by right | by intros [[=]|Hw]].
Qed.

Lemma match_prefix_lang (r : regex) (s : string) :
  match_prefix r s = true ↔ ∃ u v, s = u +:+ v ∧ u ∈ lang r.
Proof.
  revert r. induction s as [|c s IH]; intros r; cbn [match_prefix];
    rewrite orb_true_iff, nullable_lang.
  - split.
    + intros [Hnull|[=]]. by exists "", "".
    + intros (u & v & Hs & Hu). left. destruct u; [done | discriminate].
  - rewrite IH. split.
    + intros [Hnull|(u & v & -> & Hu)].
      * by exists "", (String c s).
      * exists (String c u), v. by rewrite <- deriv_lang.
    + intros (u & v & Hs & Hu). destruct u as [|x u]; [by left | right].
      injection Hs as -> ->. exists u, v. by rewrite deriv_lang.
Qed.

(** [re.search] finds a match exactly when a substring is in the
    language of the pattern. *)
Lemma re_search_lang (r : regex) (s : string) :
  re_search r s = true ↔ ∃ u, u ∈ lang r ∧ substring_of u s.
Proof.
  induction s as [|c s IH]; cbn [re_search];
    rewrite orb_true_iff, match_prefix_lang.
  - split.
    + intros [(u & v & Hs & Hu)|[=]]. exists u. split; [done|]. by exists "", v.
    + intros (u & Hu & a & b & Hs). left. destruct a; [|discriminate].
      by exists u, b.
  - rewrite IH. split.
    + intros [(u & v & Hs & Hu)|(u & Hu & a & b & ->)].
      * exists u. split; [done|]. by exists "", v.
      * exists u. split; [done|]. by exists (String c a), b.
    + intros (u & Hu & a & b & Hs). destruct a as [|x a].
      * left. by exists u, b.
      * right. injection Hs as -> ->. exists u. split; [done|]. by exists a, b.
Qed.

Lemma lang_lit (s : string) : lang (lit s) = [s].
Proof.
  induction s as [|c s IH]; [done|]. cbn [lit lang]. by rewrite IH.
Qed.

Lemma re_search_lit (w s : string) : re_search (lit w) s = true ↔ substring_of w s.
Proof.
  rewrite re_search_lang, lang_lit. split.
  - intros (u & Hu & Hsub). apply list_elem_of_singleton in Hu. by subst u.
  - intros Hsub. exists w. split; [apply list_elem_of_here | done].
Qed.

Lemma any_pattern_exists (patterns : list regex) (url : string) :
  any_pattern patterns url = true ↔ ∃ p, p ∈ patterns ∧ re_search p url = true.
Proof.
  induction patterns as [|p ps IH]; cbn [any_pattern].
  - split; [done | intros (p & Hp & _); by apply elem_of_nil in Hp].
  - destruct (re_search p url) eqn:Hp.
    + split; [|done]. intros _. exists p. split; [apply list_elem_of_here | done].
    + rewrite IH. split.
      * intros (q & Hq & Hs). exists q. split; [by apply list_elem_of_further | done].
      * intros (q & Hq & Hs). apply elem_of_cons in Hq as [->|Hq]; [congruence|eauto].
Qed.

(** ** is_valid_youtube_url *)

(** Every word of every pattern contains a recognised host. *)
Lemma patterns_contain_host (p : regex) (u : string) :
  p ∈ youtube_patterns → u ∈ lang p →
  ∃ host, host ∈ recognized_hosts ∧ substring_of host u.
Proof.
  intros Hp Hu.
  assert (forallb (λ p, forallb (λ u,
            existsb (λ host, re_search (lit host) u) recognized_hosts) (lang p))
          youtube_patterns = true) as Hall by (vm_compute; reflexivity).
  rewrite forallb_forall in Hall. apply list_elem_of_In in Hp, Hu.
  specialize (Hall p Hp). rewrite forallb_forall in Hall.
  specialize (Hall u Hu). apply existsb_exists in Hall as (host & Hhost & Hsearch).
  exists host. split; [by apply list_elem_of_In | by apply re_search_lit].
Qed.

(** Every recognised host is a word of the first pattern (scheme and
    [www.] left out). *)
Lemma hosts_in_first_pattern (host : string) :
  host ∈ recognized_hosts →
  ∃ p, p ∈ youtube_patterns ∧ host ∈ lang p.
Proof.
  intros Hhost.
  assert (forallb (λ host,
            existsb (λ p, existsb (String.eqb host) (lang p)) youtube_patterns)
          recognized_hosts = true) as Hall by (vm_compute; reflexivity).
  rewrite forallb_forall in Hall. apply list_elem_of_In in Hhost.
  specialize (Hall host Hhost). apply existsb_exists in Hall as (p & Hp & Hin).
  apply existsb_exists in Hin as (u & Hu & Heq). apply String.eqb_eq in Heq as <-.
  exists p. split; by apply list_elem_of_In.
Qed.

Lemma is_valid_youtube_url_true (url : string) :
  is_valid_youtube_url url = true ↔
  ∃ host, host ∈ recognized_hosts ∧ substring_of host url.
Proof.
  unfold is_valid_youtube_url. rewrite any_pattern_exists. split.
  - intros (p & Hp & Hsearch). apply re_search_lang in Hsearch as (u & Hu & Hsub).
    destruct (patterns_contain_host p u Hp Hu) as (host & Hhost & Hin).
    exists host. split; [done|]. by apply substring_of_trans with u.
  - intros (host & Hhost & Hsub).
    destruct (hosts_in_first_pattern host Hhost) as (p & Hp & Hin).
    exists p. split; [done|]. apply re_search_lang. by exists host.
Qed.

(** C4: a string that contains a recognised host substring anywhere is
    accepted, whatever precedes it (scheme, [www.] or anything else); a
    string that contains none is rejected; the function is total and has
    no other outcome.  "youtube.com/watch?v=abc" is accepted and
    "vimeo.com/12345" is rejected. *)
Theorem is_valid_youtube_url_substring (url : string) :
  ((∃ host, host ∈ recognized_hosts ∧ substring_of host url) →
     is_valid_youtube_url url = true) ∧
  ((∀ host, host ∈ recognized_hosts → ¬ substring_of host url) →
     is_valid_youtube_url url = false) ∧
  is_valid_youtube_url "youtube.com/watch?v=abc" = true ∧
  is_valid_youtube_url "vimeo.com/12345" = false.
Proof.
  split; [|split; [|split; vm_compute; reflexivity]].
  - apply is_valid_youtube_url_true.
  - intros Hnone. destruct (is_valid_youtube_url url) eqn:Hvalid; [|done].
    apply is_valid_youtube_url_true in Hvalid as (host & Hhost & Hsub).
    by destruct (Hnone host Hhost).
Qed.

(** ** get_video_info: the two loops *)

Lemma video_audio_option_ok (d : gmap string pyval) :
  is_Some (d !! "format_id") →
  ∃ entry, video_audio_option d = Ok entry ∧ type entry = "video+audio".
Proof.
  intros [id Hid]. unfold video_audio_option, dict_item. rewrite Hid.
  eexists. split; reflexivity.
Qed.

Lemma audio_only_option_ok (d : gmap string pyval) :
  is_Some (d !! "format_id") →
  ∃ entry, audio_only_option d = Ok entry ∧ type entry = "audio-only".
Proof.
  intros [id Hid]. unfold audio_only_option, dict_item. rewrite Hid.
  eexists. split; reflexivity.
Qed.

Lemma video_audio_option_type (d : gmap string pyval) (entry : format_option) :
  video_audio_option d = Ok entry → type entry = "video+audio".
Proof.
  unfold video_audio_option. destruct (dict_item d "format_id"); [|done].
  by intros [= <-].
Qed.

Lemma audio_only_option_type (d : gmap string pyval) (entry : format_option) :
  audio_only_option d = Ok entry → type entry = "audio-only".
Proof.
  unfold audio_only_option. destruct (dict_item d "format_id"); [|done].
  by intros [= <-].
Qed.

(** A loop over well-formed renditions appends one entry per rendition
    that passes the test, in the order of the list. *)
Lemma for_append_dicts (body : pyval → result (option format_option))
    (test : gmap string pyval → bool)
    (option_of : gmap string pyval → result format_option)
    (ds : list (gmap string pyval)) (formats : list format_option) :
  (∀ d, body (PyDict d) =
          if test d then o ← option_of d; Ok (Some o) else Ok None) →
  Forall (λ d, ∃ entry, option_of d = Ok entry) ds →
  ∃ new, for_append body (PyDict <$> ds) formats = Ok (formats ++ new) ∧
         Forall2 (λ d entry, option_of d = Ok entry)
                 (filter (λ d, test d = true) ds) new.
Proof.
  intros Hbody Hds. revert formats.
  induction Hds as [|d ds [entry Hentry] _ IH]; intros formats.
  - exists []. split; [by rewrite app_nil_r | constructor].
  - rewrite fmap_cons. cbn [for_append]. rewrite Hbody.
    destruct (test d) eqn:Htest.
    + rewrite Hentry. cbn [mbind result_bind].
      destruct (IH (formats ++ [entry])) as (new & -> & Hnew).
      exists (entry :: new). split; [by rewrite <- app_assoc|].
      rewrite filter_cons_True by done. by constructor.
    + cbn [mbind result_bind]. destruct (IH formats) as (new & -> & Hnew).
      exists new. split; [done|].
      rewrite filter_cons_False by congruence. done.
Qed.

(** Lines 81-120 on a record whose formats are well-formed renditions. *)
Lemma build_result_ok (info : gmap string pyval) (ds : list (gmap string pyval)) :
  info !! "formats" = Some (PyList (PyDict <$> ds)) →
  Forall (λ d, is_Some (d !! "format_id")) ds →
  ∃ video_info va ao,
    build_result (PyDict info) = Ok (video_info, va ++ ao) ∧
    Forall2 (λ d entry, video_audio_option d = Ok entry)
            (filter (λ d, is_video_audio d = true) ds) va ∧
    Forall2 (λ d entry, audio_only_option d = Ok entry)
            (filter (λ d, is_audio_only d = true) ds) ao.
Proof.
  intros Hformats Hids. unfold build_result. rewrite Hformats. cbn [py_iter].
  destruct (for_append_dicts video_audio_body is_video_audio video_audio_option ds [])
    as (va & Hva & Hva2); [done | |].
  { eapply Forall_impl; [exact Hids|]. intros d Hd.
    destruct (video_audio_option_ok d Hd) as (e & He & _). eauto. }
  destruct (for_append_dicts audio_only_body is_audio_only audio_only_option ds va)
    as (ao & Hao & Hao2); [done | |].
  { eapply Forall_impl; [exact Hids|]. intros d Hd.
    destruct (audio_only_option_ok d Hd) as (e & He & _). eauto. }
  cbn. rewrite Hva. cbn. rewrite Hao. cbn. eauto 10.
Qed.

Lemma filter_type_same (k : string) (l : list format_option) :
  Forall (λ e, type e = k) l → filter (λ e, type e = k) l = l.
Proof.
  induction 1 as [|e l He _ IH]; [done|].
  rewrite filter_cons_True by done. by f_equal.
Qed.

Lemma filter_type_other (k k' : string) (l : list format_option) :
  k ≠ k' → Forall (λ e, type e = k') l → filter (λ e, type e = k) l = [].
Proof.
  intros Hne. induction 1 as [|e l He _ IH]; [done|].
  rewrite filter_cons_False by congruence. done.
Qed.

Lemma video_formats_app (va ao : list format_option) :
  Forall (λ e, type e = "video+audio") va →
  Forall (λ e, type e = "audio-only") ao →
  video_formats (va ++ ao) = va ∧ audio_formats (va ++ ao) = ao.
Proof.
  intros Hva Hao. unfold video_formats, audio_formats. rewrite !filter_app.
  rewrite (filter_type_same _ va Hva), (filter_type_same _ ao Hao).
  rewrite (filter_type_other "video+audio" "audio-only" ao) by done.
  rewrite (filter_type_other "audio-only" "video+audio" va) by done.
  by rewrite app_nil_r.
Qed.

(** ** get_video_info: the whole call *)

Section get_video_info.
Context {Y : YoutubeDL}.
Implicit Types (w : world Y) (url : string) (info : gmap string pyval)
  (ds : list (gmap string pyval)).

(** On a record with well-formed renditions the call succeeds, emits
    nothing, and returns the entries of the first loop followed by those
    of the second. *)
Lemma get_video_info_ok url w info l ds :
  extract_info Y quiet_opts url false (lib w) = (Ok (PyDict info), l) →
  info !! "formats" = Some (PyList (PyDict <$> ds)) →
  Forall (λ d, is_Some (d !! "format_id")) ds →
  ∃ video_info va ao,
    get_video_info url w =
      ((Some video_info, Some (va ++ ao)),
       World l (calls w ++ [ExtractInfo quiet_opts url false]) (page w)) ∧
    Forall2 (λ d entry, video_audio_option d = Ok entry)
            (filter (λ d, is_video_audio d = true) ds) va ∧
    Forall2 (λ d entry, audio_only_option d = Ok entry)
            (filter (λ d, is_audio_only d = true) ds) ao.
Proof.
  intros Hlib Hformats Hids.
  destruct (build_result_ok info ds Hformats Hids) as (vi & va & ao & Hbuild & Hva & Hao).
  exists vi, va, ao. split; [|done].
  unfold get_video_info, ydl_extract_info. rewrite Hlib.
  cbn [mbind result_bind]. by rewrite Hbuild.
Qed.

Lemma entries_video_audio (l : list (gmap string pyval)) (va : list format_option) :
  Forall2 (λ d entry, video_audio_option d = Ok entry) l va →
  Forall (λ e, type e = "video+audio") va.
Proof.
  intros H. eapply Forall2_Forall_r; [exact H|].
  apply Forall_forall. intros d _ e. apply video_audio_option_type.
Qed.

Lemma entries_audio_only (l : list (gmap string pyval)) (ao : list format_option) :
  Forall2 (λ d entry, audio_only_option d = Ok entry) l ao →
  Forall (λ e, type e = "audio-only") ao.
Proof.
  intros H. eapply Forall2_Forall_r; [exact H|].
  apply Forall_forall. intros d _ e. apply audio_only_option_type.
Qed.

(** The tests of the two loops are the classification of the
    specification. *)
Lemma ne_str_codec (d : gmap string pyval) (key : string) :
  ne_str (dict_get d key PyNone) "none" = negb (codec_none d key).
Proof.
  unfold dict_get, codec_none. destruct (d !! key) as [[]|]; reflexivity.
Qed.

Lemma eq_str_codec (d : gmap string pyval) (key : string) :
  eq_str (dict_get d key PyNone) "none" = codec_none d key.
Proof.
  unfold dict_get, codec_none. destruct (d !! key) as [[]|]; reflexivity.
Qed.

Lemma is_video_audio_classify (d : gmap string pyval) :
  is_video_audio d = true ↔ classify d = Some VideoAudio.
Proof.
  unfold is_video_audio, classify. rewrite !ne_str_codec.
  destruct (codec_none d "vcodec"), (codec_none d "acodec"); cbn; naive_solver.
Qed.

Lemma is_audio_only_classify (d : gmap string pyval) :
  is_audio_only d = true ↔ classify d = Some AudioOnly.
Proof.
  unfold is_audio_only, classify. rewrite eq_str_codec, ne_str_codec.
  destruct (codec_none d "vcodec"), (codec_none d "acodec"); cbn; naive_solver.
Qed.

End get_video_info.

(** ** get_video_info: classification (C1, C10) and order (C9) *)

(** C1: on a record whose renditions are dicts carrying a format id, the
    call succeeds; its video-plus-audio bucket holds, one for one, the
    entries of the renditions neither of whose codecs is "none", its
    audio-only bucket those of the renditions whose video codec is "none"
    and whose audio codec is not; there is no other entry, and a
    rendition whose audio codec is "none" has no kind, hence no entry. *)
Theorem get_video_info_classifies (Y : YoutubeDL) (url : string) (w : world Y)
    (info : gmap string pyval) (l : lib_state Y) (ds : list (gmap string pyval)) :
  extract_info Y quiet_opts url false (lib w) = (Ok (PyDict info), l) →
  info !! "formats" = Some (PyList (PyDict <$> ds)) →
  Forall (λ d, is_Some (d !! "format_id")) ds →
  ∃ video_info formats w',
    get_video_info url w = ((Some video_info, Some formats), w') ∧
    Forall2 (λ d entry, video_audio_option d = Ok entry)
      (filter (λ d, classify d = Some VideoAudio) ds) (video_formats formats) ∧
    Forall2 (λ d entry, audio_only_option d = Ok entry)
      (filter (λ d, classify d = Some AudioOnly) ds) (audio_formats formats) ∧
    formats = video_formats formats ++ audio_formats formats ∧
    (∀ d, codec_none d "acodec" = true → classify d = None).
Proof.
  intros Hlib Hformats Hids.
  destruct (get_video_info_ok url w info l ds Hlib Hformats Hids)
    as (vi & va & ao & Hget & Hva & Hao).
  destruct (video_formats_app va ao (entries_video_audio _ _ Hva)
              (entries_audio_only _ _ Hao)) as [Hvf Haf].
  eexists vi, (va ++ ao), _. split; [exact Hget|]. rewrite Hvf, Haf.
  rewrite <- (list_filter_iff _ _ ds is_video_audio_classify).
  rewrite <- (list_filter_iff _ _ ds is_audio_only_classify).
  repeat split; try done.
  intros d Hnone. unfold classify. rewrite Hnone.
  by destruct (codec_none d "vcodec").
Qed.

(** C9: the returned list is the video-plus-audio entries followed by the
    audio-only entries; within each part the entries come from a
    subsequence of the library's list, in the library's order, and every
    video-plus-audio entry stands before every audio-only entry. *)
Theorem get_video_info_keeps_order (Y : YoutubeDL) (url : string) (w : world Y)
    (info : gmap string pyval) (l : lib_state Y) (ds : list (gmap string pyval)) :
  extract_info Y quiet_opts url false (lib w) = (Ok (PyDict info), l) →
  info !! "formats" = Some (PyList (PyDict <$> ds)) →
  Forall (λ d, is_Some (d !! "format_id")) ds →
  ∃ video_info formats w' dva dao va ao,
    get_video_info url w = ((Some video_info, Some formats), w') ∧
    formats = va ++ ao ∧
    dva = filter (λ d, is_video_audio d = true) ds ∧
    dao = filter (λ d, is_audio_only d = true) ds ∧
    dva `sublist_of` ds ∧ dao `sublist_of` ds ∧
    Forall2 (λ d entry, video_audio_option d = Ok entry) dva va ∧
    Forall2 (λ d entry, audio_only_option d = Ok entry) dao ao ∧
    (∀ i j e1 e2,
       formats !! i = Some e1 → formats !! j = Some e2 →
       type e1 = "video+audio" → type e2 = "audio-only" → (i < j)%nat).
Proof.
  intros Hlib Hformats Hids.
  destruct (get_video_info_ok url w info l ds Hlib Hformats Hids)
    as (vi & va & ao & Hget & Hva & Hao).
  eexists vi, (va ++ ao), _,
    (filter (λ d, is_video_audio d = true) ds),
    (filter (λ d, is_audio_only d = true) ds), va, ao.
  split; [exact Hget|]. do 3 (split; [done|]).
  split; [apply sublist_filter|]. split; [apply sublist_filter|].
  split; [exact Hva|]. split; [exact Hao|].
  intros i j e1 e2 Hi Hj Ht1 Ht2.
  pose proof (entries_video_audio _ _ Hva) as Tva.
  pose proof (entries_audio_only _ _ Hao) as Tao.
  apply lookup_app_Some in Hi as [Hi|[_ Hi]].
  - apply lookup_app_Some in Hj as [Hj|[Hlen _]].
    + pose proof (Forall_lookup_1 _ _ _ _ Tva Hj) as Ht. cbn in Ht. congruence.
    + apply lookup_lt_Some in Hi. lia.
  - pose proof (Forall_lookup_1 _ _ _ _ Tao Hi) as Ht. cbn in Ht. congruence.
Qed.

(** C10: a rendition without any video-codec field whose audio codec is
    present and not "none" yields one entry of the video-plus-audio
    bucket, at its place among the other renditions, and no entry of the
    audio-only bucket. *)
Theorem absent_vcodec_is_video_audio (Y : YoutubeDL) (url : string) (w : world Y)
    (info : gmap string pyval) (l : lib_state Y)
    (pre post : list (gmap string pyval)) (d : gmap string pyval) (acodec : pyval) :
  extract_info Y quiet_opts url false (lib w) = (Ok (PyDict info), l) →
  info !! "formats" = Some (PyList (PyDict <$> (pre ++ d :: post))) →
  Forall (λ d, is_Some (d !! "format_id")) (pre ++ d :: post) →
  d !! "vcodec" = None →
  d !! "acodec" = Some acodec →
  ne_str acodec "none" = true →
  ∃ video_info formats w' entry va_pre va_post,
    get_video_info url w = ((Some video_info, Some formats), w') ∧
    video_audio_option d = Ok entry ∧
    type entry = "video+audio" ∧
    video_formats formats = va_pre ++ entry :: va_post ∧
    Forall2 (λ d entry, video_audio_option d = Ok entry)
      (filter (λ d, is_video_audio d = true) pre) va_pre ∧
    Forall2 (λ d entry, video_audio_option d = Ok entry)
      (filter (λ d, is_video_audio d = true) post) va_post ∧
    Forall2 (λ d entry, audio_only_option d = Ok entry)
      (filter (λ d, is_audio_only d = true) (pre ++ post)) (audio_formats formats).
Proof.
  intros Hlib Hformats Hids Hv Ha Hne.
  destruct (get_video_info_ok url w info l _ Hlib Hformats Hids)
    as (vi & va & ao & Hget & Hva & Hao).
  destruct (video_formats_app va ao (entries_video_audio _ _ Hva)
              (entries_audio_only _ _ Hao)) as [Hvf Haf].
  assert (is_video_audio d = true) as Hd.
  { unfold is_video_audio, dict_get. rewrite Hv, Ha. cbn. by rewrite Hne. }
  assert (is_audio_only d = false) as Hd'.
  { unfold is_audio_only, dict_get. by rewrite Hv. }
  rewrite filter_app, filter_cons_True in Hva by done.
  rewrite filter_app, filter_cons_False in Hao by congruence.
  apply Forall2_app_inv_l in Hva as (va_pre & rest & Hpre & Hrest & ->).
  apply Forall2_cons_inv_l in Hrest as (entry & va_post & Hentry & Hpost & ->).
  eexists vi, _, _, entry, va_pre, va_post.
  split; [exact Hget|]. rewrite Hvf, Haf, filter_app.
  repeat split; try done. by apply video_audio_option_type in Hentry.
Qed.

(** The renditions must carry a format id: [f['format_id']] raises on one
    that does not, and the whole call ends in the handler. *)
Example get_video_info_missing_id :
  (get_video_info "https://youtu.be/x" (fresh no_id_library 0%nat)).1 = (None, None) ∧
  page (get_video_info "https://youtu.be/x" (fresh no_id_library 0%nat)).2 =
    [StError "Error fetching video info: 'format_id'"].
Proof. split; vm_compute; reflexivity. Qed.

(** ** get_video_info: quality labels (C2) *)

Lemma dict_get_chosen (d : gmap string pyval) (fallback : string) :
  dict_get d "format_note" (dict_get d fallback (PyStr "Unknown")) =
  chosen_quality d fallback.
Proof.
  unfold dict_get, chosen_quality.
  destruct (d !! "format_note"); [done|]. by destruct (d !! fallback).
Qed.

Lemma video_audio_option_quality (d : gmap string pyval) (entry : format_option) :
  video_audio_option d = Ok entry →
  let q := chosen_quality d "height" in
  (isinstance_int q = true → quality entry = PyStr (fstr_int q +:+ "p")) ∧
  (isinstance_int q = false → quality entry = q).
Proof.
  unfold video_audio_option. rewrite dict_get_chosen.
  destruct (dict_item d "format_id"); [|done]. intros [= <-]. cbn.
  by destruct (isinstance_int (chosen_quality d "height")).
Qed.

Lemma audio_only_option_quality (d : gmap string pyval) (entry : format_option) :
  audio_only_option d = Ok entry →
  let q := chosen_quality d "abr" in
  (isinstance_int q = true → quality entry = PyStr (fstr_int q +:+ "kbps")) ∧
  (isinstance_int q = false → quality entry = q).
Proof.
  unfold audio_only_option. rewrite dict_get_chosen.
  destruct (dict_item d "format_id"); [|done]. intros [= <-]. cbn.
  by destruct (isinstance_int (chosen_quality d "abr")).
Qed.

(** C2 (amended): the label is made from the descriptive note when the
    rendition has one, otherwise from the pixel height (video plus audio)
    or the average bitrate (audio only), otherwise from "Unknown"; the
    suffix "p" or "kbps" is appended exactly when that value is an
    instance of int, and any other value is the label as it is. *)
Theorem quality_label_rule (Y : YoutubeDL) (url : string) (w : world Y)
    (info : gmap string pyval) (l : lib_state Y) (ds : list (gmap string pyval)) :
  extract_info Y quiet_opts url false (lib w) = (Ok (PyDict info), l) →
  info !! "formats" = Some (PyList (PyDict <$> ds)) →
  Forall (λ d, is_Some (d !! "format_id")) ds →
  ∃ video_info formats w',
    get_video_info url w = ((Some video_info, Some formats), w') ∧
    Forall2 (λ d entry,
               let q := chosen_quality d "height" in
               (isinstance_int q = true →
                  quality entry = PyStr (fstr_int q +:+ "p")) ∧
               (isinstance_int q = false → quality entry = q))
      (filter (λ d, is_video_audio d = true) ds) (video_formats formats) ∧
    Forall2 (λ d entry,
               let q := chosen_quality d "abr" in
               (isinstance_int q = true →
                  quality entry = PyStr (fstr_int q +:+ "kbps")) ∧
               (isinstance_int q = false → quality entry = q))
      (filter (λ d, is_audio_only d = true) ds) (audio_formats formats).
Proof.
  intros Hlib Hformats Hids.
  destruct (get_video_info_ok url w info l ds Hlib Hformats Hids)
    as (vi & va & ao & Hget & Hva & Hao).
  destruct (video_formats_app va ao (entries_video_audio _ _ Hva)
              (entries_audio_only _ _ Hao)) as [Hvf Haf].
  eexists vi, (va ++ ao), _. split; [exact Hget|]. rewrite Hvf, Haf. split.
  - eapply Forall2_impl; [exact Hva|]. apply video_audio_option_quality.
  - eapply Forall2_impl; [exact Hao|]. apply audio_only_option_quality.
Qed.

(** C2 as stated fails on a float bitrate: the rendition has no note, its
    average bitrate 129.5 is a number, and the label is that float, with
    no "kbps". *)
Lemma float_bitrate_gets_no_suffix :
  (get_video_info "https://youtu.be/x" (fresh float_library 0%nat)).1 =
    (Some (VideoInfo (PyStr "Sample") (PyInt 0) (PyStr "Unknown") (PyInt 0)
             (PyStr "") (PyStr "")),
     Some [FormatOption (PyStr "140") (PyFloat (mkFloat 259 (-1)))
             (PyStr "m4a") (PyInt 0) "audio-only"]) ∧
  ¬ kbps_iff_numeric sample_audio_float.
Proof.
  split; [vm_compute; reflexivity|].
  intros Hclaim.
  assert (audio_only_option sample_audio_float =
          Ok (FormatOption (PyStr "140") (PyFloat (mkFloat 259 (-1)))
                (PyStr "m4a") (PyInt 0) "audio-only")) as Hentry
    by (vm_compute; reflexivity).
  destruct (Hclaim ltac:(vm_compute; reflexivity) _ Hentry) as [Hsuffix _].
  destruct Hsuffix as [s Hs]; [vm_compute; reflexivity|].
  discriminate Hs.
Qed.

(** ** get_video_info: failure (C3) and defaults (C7) *)

(** C3: when the library raises, the call catches the error, shows one
    message, which is not empty, and returns neither a VideoInfo nor a
    format list. *)
Theorem get_video_info_library_error (Y : YoutubeDL) (url : string) (w : world Y)
    (e : exception) (l : lib_state Y) :
  extract_info Y quiet_opts url false (lib w) = (Raise e, l) →
  ∃ msg,
    get_video_info url w =
      ((None, None),
       World l (calls w ++ [ExtractInfo quiet_opts url false])
             (page w ++ [StError msg])) ∧
    msg = "Error fetching video info: " +:+ exc_str e ∧
    msg ≠ "".
Proof.
  intros Hlib. eexists. split; [|split; [reflexivity | done]].
  unfold get_video_info, ydl_extract_info. by rewrite Hlib.
Qed.

(** Whatever the library does, the call returns both results or
    neither, and shows a message exactly when it returns neither. *)
Lemma get_video_info_all_or_nothing (Y : YoutubeDL) (url : string) (w : world Y) :
  (∃ video_info formats w',
     get_video_info url w = ((Some video_info, Some formats), w') ∧
     page w' = page w) ∨
  (∃ msg w',
     get_video_info url w = ((None, None), w') ∧
     page w' = page w ++ [StError msg] ∧ msg ≠ "").
Proof.
  unfold get_video_info, ydl_extract_info.
  destruct (extract_info Y quiet_opts url false (lib w)) as [r l].
  destruct (r ≫= build_result) as [[vi fs]|e].
  - left. by eexists _, _, _.
  - right. by eexists _, _.
Qed.

Lemma build_result_video_info (info : gmap string pyval)
    (video_info : video_info) (formats : list format_option) :
  build_result (PyDict info) = Ok (video_info, formats) →
  video_info =
    VideoInfo (dict_get info "title" (PyStr "Unknown Title"))
              (dict_get info "duration" (PyInt 0))
              (dict_get info "uploader" (PyStr "Unknown"))
              (dict_get info "view_count" (PyInt 0))
              (dict_get info "upload_date" (PyStr ""))
              (dict_get info "thumbnail" (PyStr "")).
Proof.
  unfold build_result. destruct (info !! "formats") as [fs|]; [|by intros [= <- _]].
  destruct (py_iter fs) as [items|]; [|done]. cbn [mbind result_bind].
  destruct (for_append video_audio_body items []) as [va|]; [|done].
  cbn [mbind result_bind].
  destruct (for_append audio_only_body items va) as [ao|]; [|done].
  by intros [= <- _].
Qed.

(** C7: in the VideoInfo of a successful fetch a missing title is
    "Unknown Title", a missing uploader "Unknown", a missing duration or
    view count 0, and a missing upload date or thumbnail the empty
    string. *)
Theorem get_video_info_defaults (Y : YoutubeDL) (url : string) (w w' : world Y)
    (r : result pyval) (l : lib_state Y)
    (video_info : video_info) (formats : option (list format_option)) :
  extract_info Y quiet_opts url false (lib w) = (r, l) →
  get_video_info url w = ((Some video_info, formats), w') →
  ∃ info,
    r = Ok (PyDict info) ∧
    (info !! "title" = None → title video_info = PyStr "Unknown Title") ∧
    (info !! "uploader" = None → uploader video_info = PyStr "Unknown") ∧
    (info !! "duration" = None → duration video_info = PyInt 0) ∧
    (info !! "view_count" = None → view_count video_info = PyInt 0) ∧
    (info !! "upload_date" = None → upload_date video_info = PyStr "") ∧
    (info !! "thumbnail" = None → thumbnail video_info = PyStr "").
Proof.
  intros Hlib. unfold get_video_info, ydl_extract_info. rewrite Hlib.
  destruct r as [v|e]; [|done]. cbn [mbind result_bind].
  destruct (build_result v) as [[vi fs]|e] eqn:Hbuild; [|done].
  intros [= -> _ _].
  destruct v as [| | | | | |info]; try done.
  exists info. split; [done|].
  apply build_result_video_info in Hbuild as ->. unfold dict_get. cbn.
  repeat split; by intros ->.
Qed.

(** ** download_video (C8) *)

(** C8: the call always returns a flag and a message; it calls the
    library once; when the library returns, the flag is true and the
    message the fixed success text; when the library raises, the flag is
    false and the message is "Download failed: " followed by the text of
    the library's error, unchanged. *)
Theorem download_video_outcome (Y : YoutubeDL) (url : string) (format_id : pyval)
    (output_path : string) (w : world Y) :
  let opts := download_opts format_id output_path in
  let r := (download Y opts [url] (lib w)).1 in
  let l := (download Y opts [url] (lib w)).2 in
  download_video url format_id output_path w =
    (match r with
     | Ok _ => (true, "Download completed successfully!")
     | Raise e => (false, "Download failed: " +:+ exc_str e)
     end,
     World l (calls w ++ [Download opts [url]]) (page w)).
Proof.
  unfold download_video, ydl_download. cbn zeta.
  destruct (download Y _ [url] (lib w)) as [[[]|e] l]; reflexivity.
Qed.

(** ** The properties at work on the sample record *)

Ltac solve_format_ids :=
  repeat (apply Forall_cons_2; [apply is_Some_alt; vm_compute; exact I|]);
  apply Forall_nil_2.

Lemma sample_call :
  extract_info sample_library quiet_opts "https://youtu.be/x" false
    (lib (fresh sample_library 0%nat)) = (Ok (PyDict sample_info), 1%nat).
Proof. reflexivity. Defined.

Lemma sample_info_formats :
  sample_info !! "formats" = Some (PyList (PyDict <$> sample_formats)).
Proof. vm_compute. reflexivity. Defined.

Lemma sample_format_ids :
  Forall (λ d, is_Some (d !! "format_id")) sample_formats.
Proof. unfold sample_formats. solve_format_ids. Defined.

Lemma get_video_info_classifies_witness :
  ∃ video_info formats w',
    get_video_info "https://youtu.be/x" (fresh sample_library 0%nat) =
      ((Some video_info, Some formats), w') ∧
    Forall2 (λ d entry, video_audio_option d = Ok entry)
      (filter (λ d, classify d = Some VideoAudio) sample_formats)
      (video_formats formats) ∧
    Forall2 (λ d entry, audio_only_option d = Ok entry)
      (filter (λ d, classify d = Some AudioOnly) sample_formats)
      (audio_formats formats) ∧
    formats = video_formats formats ++ audio_formats formats ∧
    (∀ d, codec_none d "acodec" = true → classify d = None).
Proof.
  exact (get_video_info_classifies sample_library "https://youtu.be/x"
           (fresh sample_library 0%nat) sample_info 1%nat sample_formats
           sample_call sample_info_formats sample_format_ids).
Defined.

Lemma get_video_info_keeps_order_witness :
  ∃ video_info formats w' dva dao va ao,
    get_video_info "https://youtu.be/x" (fresh sample_library 0%nat) =
      ((Some video_info, Some formats), w') ∧
    formats = va ++ ao ∧
    dva = filter (λ d, is_video_audio d = true) sample_formats ∧
    dao = filter (λ d, is_audio_only d = true) sample_formats ∧
    dva `sublist_of` sample_formats ∧ dao `sublist_of` sample_formats ∧
    Forall2 (λ d entry, video_audio_option d = Ok entry) dva va ∧
    Forall2 (λ d entry, audio_only_option d = Ok entry) dao ao ∧
    (∀ i j e1 e2,
       formats !! i = Some e1 → formats !! j = Some e2 →
       type e1 = "video+audio" → type e2 = "audio-only" → (i < j)%nat).
Proof.
  exact (get_video_info_keeps_order sample_library "https://youtu.be/x"
           (fresh sample_library 0%nat) sample_info 1%nat sample_formats
           sample_call sample_info_formats sample_format_ids).
Defined.

Lemma quality_label_rule_witness :
  ∃ video_info formats w',
    get_video_info "https://youtu.be/x" (fresh sample_library 0%nat) =
      ((Some video_info, Some formats), w') ∧
    Forall2 (λ d entry,
               let q := chosen_quality d "height" in
               (isinstance_int q = true →
                  quality entry = PyStr (fstr_int q +:+ "p")) ∧
               (isinstance_int q = false → quality entry = q))
      (filter (λ d, is_video_audio d = true) sample_formats)
      (video_formats formats) ∧
    Forall2 (λ d entry,
               let q := chosen_quality d "abr" in
               (isinstance_int q = true →
                  quality entry = PyStr (fstr_int q +:+ "kbps")) ∧
               (isinstance_int q = false → quality entry = q))
      (filter (λ d, is_audio_only d = true) sample_formats)
      (audio_formats formats).
Proof.
  exact (quality_label_rule sample_library "https://youtu.be/x"
           (fresh sample_library 0%nat) sample_info 1%nat sample_formats
           sample_call sample_info_formats sample_format_ids).
Defined.

Lemma absent_vcodec_is_video_audio_witness :
  sample_no_vcodec !! "vcodec" = None ∧
  sample_no_vcodec !! "acodec" = Some (PyStr "opus") ∧
  ne_str (PyStr "opus") "none" = true ∧
  ∃ video_info formats w' entry va_pre va_post,
    get_video_info "https://youtu.be/x" (fresh sample_library 0%nat) =
      ((Some video_info, Some formats), w') ∧
    video_audio_option sample_no_vcodec = Ok entry ∧
    type entry = "video+audio" ∧
    video_formats formats = va_pre ++ entry :: va_post ∧
    Forall2 (λ d entry, video_audio_option d = Ok entry)
      (filter (λ d, is_video_audio d = true) [sample_audio; sample_video]) va_pre ∧
    Forall2 (λ d entry, video_audio_option d = Ok entry)
      (filter (λ d, is_video_audio d = true) []) va_post ∧
    Forall2 (λ d entry, audio_only_option d = Ok entry)
      (filter (λ d, is_audio_only d = true) ([sample_audio; sample_video] ++ []))
      (audio_formats formats).
Proof.
  assert (sample_no_vcodec !! "vcodec" = None) as Hv by (vm_compute; reflexivity).
  assert (sample_no_vcodec !! "acodec" = Some (PyStr "opus")) as Ha
    by (vm_compute; reflexivity).
  assert (ne_str (PyStr "opus") "none" = true) as Hne by reflexivity.
  refine (conj Hv (conj Ha (conj Hne _))).
  exact (absent_vcodec_is_video_audio sample_library "https://youtu.be/x"
           (fresh sample_library 0%nat) sample_info 1%nat
           [sample_audio; sample_video] [] sample_no_vcodec (PyStr "opus")
           sample_call sample_info_formats sample_format_ids Hv Ha Hne).
Defined.

Lemma get_video_info_library_error_witness :
  ∃ msg,
    get_video_info "https://youtu.be/gone" (fresh failing_library 0%nat) =
      ((None, None),
       World (1%nat : lib_state failing_library)
             ([] ++ [ExtractInfo quiet_opts "https://youtu.be/gone" false])
             ([] ++ [StError msg])) ∧
    msg = "Error fetching video info: " +:+
          exc_str (LibraryError "ERROR: Video unavailable") ∧
    msg ≠ "".
Proof.
  exact (get_video_info_library_error failing_library "https://youtu.be/gone"
           (fresh failing_library 0%nat)
           (LibraryError "ERROR: Video unavailable") 1%nat eq_refl).
Defined.

Lemma get_video_info_defaults_witness :
  ∃ video_info,
    (get_video_info "https://youtu.be/x" (fresh sample_library 0%nat)).1.1 =
      Some video_info ∧
    title video_info = PyStr "Sample" ∧
    uploader video_info = PyStr "Unknown" ∧
    view_count video_info = PyInt 0 ∧
    upload_date video_info = PyStr "" ∧
    thumbnail video_info = PyStr "".
Proof.
  pose (res := get_video_info "https://youtu.be/x" (fresh sample_library 0%nat)).
  pose (vi := VideoInfo (PyStr "Sample") (PyInt 125) (PyStr "Unknown")
                (PyInt 0) (PyStr "") (PyStr "")).
  assert (res = ((Some vi, res.1.2), res.2)) as Hres by (vm_compute; reflexivity).
  destruct (get_video_info_defaults sample_library "https://youtu.be/x"
              (fresh sample_library 0%nat) res.2 (Ok (PyDict sample_info)) 1%nat
              vi res.1.2 sample_call Hres)
    as (info & Hinfo & _ & Huploader & _ & Hviews & Hdate & Hthumb).
  injection Hinfo as <-.
  exists vi. split; [vm_compute; reflexivity|]. split; [reflexivity|].
  split; [apply Huploader; vm_compute; reflexivity|].
  split; [apply Hviews; vm_compute; reflexivity|].
  split; [apply Hdate; vm_compute; reflexivity|].
  apply Hthumb; vm_compute; reflexivity.
Defined.

Lemma is_valid_youtube_url_substring_witness :
  is_valid_youtube_url "see https://www.youtu.be/abc" = true.
Proof.
  apply (proj1 (is_valid_youtube_url_substring "see https://www.youtu.be/abc")).
  exists "youtu.be/". split.
  - do 3 apply list_elem_of_further. apply list_elem_of_here.
  - exists "see https://www.", "abc". reflexivity.
Defined.

Lemma download_video_outcome_witness :
  (download_video "https://youtu.be/gone" (PyStr "22") "/tmp/tmpab12"
     (fresh failing_library 0%nat)).1 =
    (false, "Download failed: ERROR: Video unavailable").
Proof.
  rewrite (download_video_outcome failing_library "https://youtu.be/gone"
             (PyStr "22") "/tmp/tmpab12" (fresh failing_library 0%nat)).
  reflexivity.
Defined.

(* ===================================================================== *)
(** * Part III: further properties of the code *)
(* ===================================================================== *)

(** ** get_video_info: when it succeeds *)

Lemma for_append_Ok_iff (body : pyval → result (option format_option))
    (items : list pyval) (formats : list format_option) :
  (∃ out, for_append body items formats = Ok out) ↔
  Forall (λ f, ∃ o, body f = Ok o) items.
Proof.
  revert formats. induction items as [|f items IH]; intros formats; cbn [for_append].
  - split; [constructor | by eexists].
  - destruct (body f) as [o|e] eqn:Hbody; cbn [mbind result_bind].
    + rewrite IH. split.
      * intros Hrest. constructor; [by eexists | done].
      * by intros [_ Hrest]%Forall_cons.
    + split; [by intros [out [=]]|].
      intros [[o Ho] _]%Forall_cons. congruence.
Qed.

Lemma video_audio_body_Ok (f : pyval) :
  (∃ o, video_audio_body f = Ok o) ↔
  ∃ d, f = PyDict d ∧ (is_video_audio d = true → is_Some (d !! "format_id")).
Proof.
  destruct f as [| | | | | |d];
    try (split; [by intros [o [=]] | by intros (d & [=] & _)]).
  cbn [video_audio_body]. destruct (is_video_audio d) eqn:Htest.
  - unfold video_audio_option, dict_item.
    destruct (d !! "format_id") as [id|] eqn:Hid; cbn [mbind result_bind].
    + split; [|by eexists]. intros _. exists d. split; [done|].
      intros _. rewrite Hid. by eexists.
    + split; [by intros [o [=]]|].
      intros (d' & [= <-] & Hd). destruct (Hd Htest) as [x Hx]. congruence.
  - split; [|by eexists]. intros _. exists d. split; [done|]. congruence.
Qed.

Lemma audio_only_body_Ok (f : pyval) :
  (∃ o, audio_only_body f = Ok o) ↔
  ∃ d, f = PyDict d ∧ (is_audio_only d = true → is_Some (d !! "format_id")).
Proof.
  destruct f as [| | | | | |d];
    try (split; [by intros [o [=]] | by intros (d & [=] & _)]).
  cbn [audio_only_body]. destruct (is_audio_only d) eqn:Htest.
  - unfold audio_only_option, dict_item.
    destruct (d !! "format_id") as [id|] eqn:Hid; cbn [mbind result_bind].
    + split; [|by eexists]. intros _. exists d. split; [done|].
      intros _. rewrite Hid. by eexists.
    + split; [by intros [o [=]]|].
      intros (d' & [= <-] & Hd). destruct (Hd Htest) as [x Hx]. congruence.
  - split; [|by eexists]. intros _. exists d. split; [done|]. congruence.
Qed.

Lemma rendition_ok_both (items : list pyval) :
  Forall rendition_ok items ↔
  Forall (λ f, ∃ o, video_audio_body f = Ok o) items ∧
  Forall (λ f, ∃ o, audio_only_body f = Ok o) items.
Proof.
  rewrite <- Forall_and. apply Forall_proper; [|done]. intros f.
  rewrite video_audio_body_Ok, audio_only_body_Ok. unfold rendition_ok. split.
  - intros (d & -> & Hid). split; exists d; split; auto.
  - intros [(d & -> & Hva) (d' & [= <-] & Hao)]. exists d. split; [done|].
    intros [?|?]; auto.
Qed.

Lemma build_result_Ok_iff (info : gmap string pyval) :
  (∃ r, build_result (PyDict info) = Ok r) ↔ formats_ok info.
Proof.
  unfold build_result, formats_ok. destruct (info !! "formats") as [fs|].
  - destruct (py_iter fs) as [items|e]; cbn [mbind result_bind].
    + split.
      * intros [r Hr]. exists items. split; [done|]. apply rendition_ok_both.
        destruct (for_append video_audio_body items []) as [va|] eqn:Hva;
          [|discriminate]. cbn [mbind result_bind] in Hr.
        destruct (for_append audio_only_body items va) as [ao|] eqn:Hao;
          [|discriminate].
        split;
          [apply (for_append_Ok_iff _ _ []) | apply (for_append_Ok_iff _ _ va)];
          by eexists.
      * intros (items' & [= <-] & Hok). apply rendition_ok_both in Hok as [Hva Hao].
        apply (for_append_Ok_iff _ _ []) in Hva as [va ->]. cbn [mbind result_bind].
        apply (for_append_Ok_iff _ _ va) in Hao as [ao ->]. by eexists.
    + split; [by intros [r [=]] | by intros (items & [=] & _)].
  - split; [done | by eexists].
Qed.

(** The call returns a result exactly when the library returns a dict
    whose formats, if it has any, can be iterated and are all dicts that
    carry a format id wherever one of the two loops selects them. *)
Theorem get_video_info_succeeds_iff (Y : YoutubeDL) (url : string) (w : world Y) :
  (∃ video_info formats w',
     get_video_info url w = ((Some video_info, Some formats), w')) ↔
  ∃ info,
    (extract_info Y quiet_opts url false (lib w)).1 = Ok (PyDict info) ∧
    formats_ok info.
Proof.
  unfold get_video_info, ydl_extract_info.
  destruct (extract_info Y quiet_opts url false (lib w)) as [r l]. cbn [fst].
  destruct r as [v|e]; cbn [mbind result_bind].
  - destruct v as [| | | | | |info];
      try (split; [by intros (vi & fs & w' & [=]) | by intros (info & [=] & _)]).
    destruct (build_result (PyDict info)) as [[vi fs]|e] eqn:Hbuild.
    + split; [|by eexists _, _, _]. intros _. exists info. split; [done|].
      apply build_result_Ok_iff. by eexists.
    + split; [by intros (vi & fs & w' & [=])|].
      intros (info' & [= <-] & Hok).
      apply build_result_Ok_iff in Hok as [r Hr]. congruence.
  - split; [by intros (vi & fs & w' & [=]) | by intros (info & [=] & _)].
Qed.

(** ** get_video_info: what the entries hold *)

Lemma tests_disjoint (d : gmap string pyval) :
  is_video_audio d = true → is_audio_only d = false.
Proof.
  unfold is_video_audio, is_audio_only.
  destruct (dict_get d "vcodec" PyNone) as [| | | |s| |]; try done.
  cbn. by destruct (String.eqb s "none").
Qed.

Lemma filter_disjoint_length {A} (P Q : A → Prop)
    `{!∀ x, Decision (P x), !∀ x, Decision (Q x)} (l : list A) :
  (∀ x, P x → ¬ Q x) →
  (length (filter P l) + length (filter Q l) ≤ length l)%nat.
Proof.
  intros Hdisj. induction l as [|x l IH]; [done|].
  rewrite !filter_cons. destruct (decide (P x)) as [HP|HP].
  - destruct (decide (Q x)) as [HQ|HQ]; [by destruct (Hdisj x HP)|]. cbn. lia.
  - destruct (decide (Q x)); cbn; lia.
Qed.

(** No rendition is listed twice: the two tests exclude each other, so
    the returned list has one entry per selected rendition and is never
    longer than the library's list. *)
Theorem get_video_info_one_entry_each (Y : YoutubeDL) (url : string) (w : world Y)
    (info : gmap string pyval) (l : lib_state Y) (ds : list (gmap string pyval)) :
  extract_info Y quiet_opts url false (lib w) = (Ok (PyDict info), l) →
  info !! "formats" = Some (PyList (PyDict <$> ds)) →
  Forall (λ d, is_Some (d !! "format_id")) ds →
  ∃ video_info formats w',
    get_video_info url w = ((Some video_info, Some formats), w') ∧
    length formats =
      (length (filter (λ d, is_video_audio d = true) ds) +
       length (filter (λ d, is_audio_only d = true) ds))%nat ∧
    (length formats ≤ length ds)%nat.
Proof.
  intros Hlib Hformats Hids.
  destruct (get_video_info_ok url w info l ds Hlib Hformats Hids)
    as (vi & va & ao & Hget & Hva & Hao).
  eexists vi, (va ++ ao), _. split; [exact Hget|].
  apply Forall2_length in Hva, Hao. rewrite length_app, <- Hva, <- Hao.
  split; [done|]. apply filter_disjoint_length.
  intros d Hd. rewrite (tests_disjoint d Hd). done.
Qed.

Lemma video_audio_option_fields (d : gmap string pyval) (entry : format_option) :
  video_audio_option d = Ok entry →
  d !! "format_id" = Some (format_id entry) ∧
  ext entry = default (PyStr "mp4") (d !! "ext") ∧
  filesize entry = default (PyInt 0) (d !! "filesize").
Proof.
  unfold video_audio_option, dict_item, dict_get.
  destruct (d !! "format_id") as [id|]; [|done]. by intros [= <-].
Qed.

Lemma audio_only_option_fields (d : gmap string pyval) (entry : format_option) :
  audio_only_option d = Ok entry →
  d !! "format_id" = Some (format_id entry) ∧
  ext entry = default (PyStr "mp3") (d !! "ext") ∧
  filesize entry = default (PyInt 0) (d !! "filesize").
Proof.
  unfold audio_only_option, dict_item, dict_get.
  destruct (d !! "format_id") as [id|]; [|done]. by intros [= <-].
Qed.

(** Every entry carries the format id of its rendition, the rendition's
    extension and file size when it has them, and otherwise the extension
    "mp4" in the video-plus-audio bucket, "mp3" in the audio-only bucket,
    and the file size 0. *)
Theorem get_video_info_copies_fields (Y : YoutubeDL) (url : string) (w : world Y)
    (info : gmap string pyval) (l : lib_state Y) (ds : list (gmap string pyval)) :
  extract_info Y quiet_opts url false (lib w) = (Ok (PyDict info), l) →
  info !! "formats" = Some (PyList (PyDict <$> ds)) →
  Forall (λ d, is_Some (d !! "format_id")) ds →
  ∃ video_info formats w',
    get_video_info url w = ((Some video_info, Some formats), w') ∧
    Forall2 (λ d entry,
               d !! "format_id" = Some (format_id entry) ∧
               ext entry = default (PyStr "mp4") (d !! "ext") ∧
               filesize entry = default (PyInt 0) (d !! "filesize"))
      (filter (λ d, is_video_audio d = true) ds) (video_formats formats) ∧
    Forall2 (λ d entry,
               d !! "format_id" = Some (format_id entry) ∧
               ext entry = default (PyStr "mp3") (d !! "ext") ∧
               filesize entry = default (PyInt 0) (d !! "filesize"))
      (filter (λ d, is_audio_only d = true) ds) (audio_formats formats).
Proof.
  intros Hlib Hformats Hids.
  destruct (get_video_info_ok url w info l ds Hlib Hformats Hids)
    as (vi & va & ao & Hget & Hva & Hao).
  destruct (video_formats_app va ao (entries_video_audio _ _ Hva)
              (entries_audio_only _ _ Hao)) as [Hvf Haf].
  eexists vi, (va ++ ao), _. split; [exact Hget|]. rewrite Hvf, Haf. split.
  - eapply Forall2_impl; [exact Hva|]. apply video_audio_option_fields.
  - eapply Forall2_impl; [exact Hao|]. apply audio_only_option_fields.
Qed.

(** ** format_filesize: small, negative and huge byte counts *)

Lemma rung_spec (n : Z) :
  0 < n →
  (rung n ≤ 4)%nat ∧
  (rung n = 0%nat ∨ 1024 ^ Z.of_nat (rung n) ≤ n) ∧
  (n < 1024 ^ (Z.of_nat (rung n) + 1) ∨ rung n = 4%nat).
Proof.
  intros Hn. unfold rung.
  destruct (Z.ltb_spec n 1024); [cbn; lia|].
  destruct (Z.ltb_spec n (1024 ^ 2)); [cbn in *; lia|].
  destruct (Z.ltb_spec n (1024 ^ 3)); [cbn in *; lia|].
  destruct (Z.ltb_spec n (1024 ^ 4)); [cbn in *; lia|].
  cbn in *; lia.
Qed.

Lemma one_decimal_whole (n : Z) : one_decimal n 1 = str_int n +:+ ".0".
Proof.
  unfold one_decimal. rewrite round_half_even_one.
  rewrite (Z.mul_comm 10 n), Z.div_mul, Z.mod_mul by lia. reflexivity.
Qed.

(** A byte count below 1024 is shown as it is, with ".0 B". *)
Theorem format_filesize_bytes (n : Z) :
  0 < n < 1024 → format_filesize n = Ok (str_int n +:+ ".0 B").
Proof.
  intros Hn. rewrite (format_filesize_exact n 0).
  - cbn [Z.of_nat nth unit_ladder]. change (1024 ^ 0) with 1.
    rewrite one_decimal_whole, append_assoc. reflexivity.
  - split; [lia|]. apply Z.lt_trans with 1024; [lia | reflexivity].
  - lia.
  - by left.
  - left. cbn. lia.
Qed.

Lemma format_filesize_bytes_witness :
  0 < 1023 < 1024 ∧ format_filesize 1023 = Ok "1023.0 B".
Proof.
  assert (0 < 1023 < 1024) as H by lia.
  refine (conj H _). rewrite (format_filesize_bytes 1023 H). reflexivity.
Defined.

(** A negative byte count is below 1024, so it is never divided: the
    result is the count itself in B, whatever its size. *)
Theorem format_filesize_negative (n : Z) :
  - 2 ^ 53 < n < 0 →
  format_filesize n = Ok ("-" +:+ str_int (- n) +:+ ".0 B").
Proof.
  intros Hn. unfold format_filesize.
  destruct (Z.eqb_spec n 0); [lia|]. cbn [filesize_loop lt_1024].
  destruct (Z.ltb_spec n 1024); [|lia].
  unfold format_1f, to_float, float_of_int.
  assert (Z.abs n = - n) as -> by lia.
  assert (Z.log2 (- n) + 1 ≤ 53) as Hbits.
  { assert (Z.log2 (- n) < 53); [|lia]. apply Z.log2_lt_pow2; lia. }
  destruct (Z.leb_spec (Z.log2 (- n) + 1) 53); [|lia].
  cbn [mbind result_bind mant expo]. destruct (Z.ltb_spec n 0); [|lia].
  assert (Z.abs n = - n) as -> by lia.
  change (0 <=? 0) with true. cbv iota. change (2 ^ 0) with 1.
  rewrite Z.mul_1_r, (Z.mul_comm 10 (- n)), Z.div_mul, Z.mod_mul by lia.
  cbn [mbind result_bind]. rewrite !append_assoc. reflexivity.
Qed.

Lemma format_filesize_negative_witness :
  - 2 ^ 53 < - 5000000 < 0 ∧ format_filesize (- 5000000) = Ok "-5000000.0 B".
Proof.
  assert (- 2 ^ 53 < - 5000000 < 0) as H by (split; reflexivity).
  refine (conj H _). rewrite (format_filesize_negative (- 5000000) H). reflexivity.
Defined.

(** Below one pebibyte the number shown lies between 1.0 and 1024.0,
    both included: rounding to one decimal place can reach 1024.0, as it
    does for one byte less than a mebibyte. *)
Theorem format_filesize_shown_range (n : Z) :
  0 < n < 1024 ^ 5 →
  (∃ tenths,
     10 ≤ tenths ≤ 10240 ∧
     format_filesize n =
       Ok (str_int (tenths `div` 10) +:+ "." +:+ str_int (tenths `mod` 10) +:+
           " " +:+ nth (rung n) unit_ladder "")) ∧
  format_filesize (1024 ^ 2 - 1) = Ok "1024.0 KB".
Proof.
  intros Hn. split; [|vm_compute; reflexivity].
  destruct (rung_spec n) as (Hk & Hlow & Hhigh); [lia|].
  exists (round_half_even (10 * n) (1024 ^ Z.of_nat (rung n))). split.
  - assert (0 < 1024 ^ Z.of_nat (rung n)) as Hpos by (apply Z.pow_pos_nonneg; lia).
    pose proof (round_half_even_bounds (10 * n) _ Hpos) as [Hlo Hhi].
    assert (10 ≤ (10 * n) `div` 1024 ^ Z.of_nat (rung n)).
    { apply Z.div_le_lower_bound; [done|].
      destruct Hlow as [->|]; [cbn; lia | lia]. }
    assert ((10 * n) `div` 1024 ^ Z.of_nat (rung n) < 10240).
    { apply Z.div_lt_upper_bound; [done|].
      destruct Hhigh as [Hlt|Heq].
      - rewrite Z.pow_add_r, Z.pow_1_r in Hlt by lia. lia.
      - rewrite Heq. cbn. cbn in Hn. lia. }
    lia.
  - rewrite (format_filesize_exact n (rung n)); try done.
    + unfold one_decimal. cbv zeta. by rewrite !append_assoc.
    + split; [lia|]. apply Z.lt_trans with (1024 ^ 5); [lia | reflexivity].
Qed.

Lemma format_filesize_shown_range_witness :
  0 < 123456789 < 1024 ^ 5 ∧
  ∃ tenths,
    10 ≤ tenths ≤ 10240 ∧
    format_filesize 123456789 =
      Ok (str_int (tenths `div` 10) +:+ "." +:+ str_int (tenths `mod` 10) +:+
          " " +:+ nth (rung 123456789) unit_ladder "").
Proof.
  assert (0 < 123456789 < 1024 ^ 5) as H by (split; reflexivity).
  exact (conj H (proj1 (format_filesize_shown_range 123456789 H))).
Defined.

(** From 1024 on, the function returns a string exactly when the byte
    count converts to a double; otherwise the first division raises. *)
Theorem format_filesize_returns_iff (n : Z) :
  1024 ≤ n →
  ((∃ s, format_filesize n = Ok s) ↔ nearest_double n < 2 ^ 1024) ∧
  (2 ^ 1024 ≤ nearest_double n →
   format_filesize n = Raise (OverflowError "int too large to convert to float")).
Proof.
  intros Hn.
  assert (2 ^ 1024 ≤ nearest_double n →
          format_filesize n =
            Raise (OverflowError "int too large to convert to float")) as Hraise.
  { intros Hbig. unfold format_filesize.
    destruct (Z.eqb_spec n 0); [lia|]. cbn [filesize_loop lt_1024].
    destruct (Z.ltb_spec n 1024); [lia|].
    unfold div_1024, to_float, float_of_int. unfold nearest_double in Hbig.
    rewrite Z.abs_eq by lia.
    destruct (Z.leb_spec (Z.log2 n + 1) 53) as [Hsmall|_].
    - assert (n < 2 ^ 53) by (apply Z.log2_lt_pow2; lia).
      assert (2 ^ 53 < 2 ^ 1024) by reflexivity. lia.
    - destruct (Z.leb_spec (2 ^ 1024)
                  (round_half_even n (2 ^ (Z.log2 n + 1 - 53)) *
                   2 ^ (Z.log2 n + 1 - 53))); [reflexivity | lia]. }
  split; [|exact Hraise]. split.
  - intros [s Hs]. destruct (Z.lt_ge_cases (nearest_double n) (2 ^ 1024)); [done|].
    rewrite Hraise in Hs by done. discriminate.
  - intros Hfin. destruct (rung_spec n) as (Hk & Hlow & Hhigh); [lia|].
    eexists. by apply (format_filesize_rung n (rung n)); [lia|..].
Qed.

Lemma format_filesize_returns_iff_witness :
  1024 ≤ 2 ^ 1024 - 2 ^ 970 ∧
  format_filesize (2 ^ 1024 - 2 ^ 970) =
    Raise (OverflowError "int too large to convert to float") ∧
  ∃ s, format_filesize (2 ^ 1024 - 2 ^ 970 - 1) = Ok s.
Proof.
  assert (1024 ≤ 2 ^ 1024 - 2 ^ 970) as H1 by (vm_compute; discriminate).
  assert (1024 ≤ 2 ^ 1024 - 2 ^ 970 - 1) as H2 by (vm_compute; discriminate).
  refine (conj H1 (conj _ _)).
  - apply (proj2 (format_filesize_returns_iff _ H1)). vm_compute. discriminate.
  - apply (proj1 (format_filesize_returns_iff _ H2)). vm_compute. reflexivity.
Defined.

(** ** format_duration: negative input and distinct results *)

Lemma format_duration_short (seconds : Z) :
  0 < seconds < 3600 →
  format_duration seconds =
    two_digits (seconds `div` 60) +:+ ":" +:+ two_digits (seconds `mod` 60).
Proof.
  intros Hs. unfold format_duration.
  destruct (Z.eqb_spec seconds 0); [lia|].
  assert (seconds `div` 3600 = 0) as -> by (apply Z.div_small; lia).
  cbn [Z.ltb Z.compare]. rewrite (Z.mod_small seconds 3600) by lia.
  pose proof (Z.mod_pos_bound seconds 60).
  rewrite !format_02d_small; [reflexivity | lia |].
  split; [apply Z.div_pos; lia | apply Z.div_lt_upper_bound; lia].
Qed.

Lemma minutes_of_hour (seconds : Z) :
  (seconds `mod` 3600) `div` 60 = (seconds `div` 60) `mod` 60.
Proof.
  replace 3600 with (60 * 60) by reflexivity.
  rewrite Z.rem_mul_r by lia.
  rewrite (Z.mul_comm 60 (_ `mod` 60)), Z.div_add by lia.
  rewrite (Z.div_small (seconds `mod` 60)) by (apply Z.mod_pos_bound; lia).
  lia.
Qed.

Lemma format_duration_long (seconds : Z) :
  3600 ≤ seconds →
  format_duration seconds =
    zero_pad2 (seconds `div` 3600) +:+ ":" +:+
    two_digits ((seconds `div` 60) `mod` 60) +:+ ":" +:+
    two_digits (seconds `mod` 60).
Proof.
  intros Hs. unfold format_duration.
  destruct (Z.eqb_spec seconds 0); [lia|].
  assert (0 < seconds `div` 3600) by (apply Z.div_str_pos; lia).
  destruct (Z.ltb_spec 0 (seconds `div` 3600)); [|lia].
  rewrite minutes_of_hour, (format_02d_zero_pad2 (seconds `div` 3600)) by lia.
  pose proof (Z.mod_pos_bound seconds 60).
  pose proof (Z.mod_pos_bound (seconds `div` 60) 60).
  rewrite !format_02d_small; [reflexivity | lia | lia].
Qed.

(** A negative duration loses its sign and its hours: what is shown is
    the minutes and seconds up from the last full hour below it, so -5
    reads like 3595. *)
Theorem format_duration_negative (seconds : Z) :
  seconds < 0 →
  format_duration seconds =
    two_digits ((seconds `div` 60) `mod` 60) +:+ ":" +:+
    two_digits (seconds `mod` 60) ∧
  (seconds `mod` 3600 ≠ 0 →
   format_duration seconds = format_duration (seconds `mod` 3600)).
Proof.
  intros Hs.
  assert (format_duration seconds =
          two_digits ((seconds `div` 60) `mod` 60) +:+ ":" +:+
          two_digits (seconds `mod` 60)) as Heq.
  { unfold format_duration. destruct (Z.eqb_spec seconds 0); [lia|].
    assert (seconds `div` 3600 < 0) by (apply Z.div_lt_upper_bound; lia).
    destruct (Z.ltb_spec 0 (seconds `div` 3600)); [lia|].
    rewrite minutes_of_hour.
    pose proof (Z.mod_pos_bound seconds 60).
    pose proof (Z.mod_pos_bound (seconds `div` 60) 60).
    rewrite !format_02d_small; [reflexivity | lia | lia]. }
  split; [exact Heq|]. intros Hne.
  pose proof (Z.mod_pos_bound seconds 3600).
  rewrite Heq, (format_duration_short (seconds `mod` 3600)) by lia.
  rewrite <- minutes_of_hour.
  assert ((seconds `mod` 3600) `mod` 60 = seconds `mod` 60) as ->; [|done].
  replace 3600 with (60 * 60) by reflexivity.
  rewrite Z.rem_mul_r, (Z.mul_comm 60), Z.mod_add, Z.mod_mod by lia. done.
Qed.

Lemma decimal_value_str_int (z : Z) : 0 ≤ z → decimal_value (str_int z) = Some z.
Proof.
  intros Hz. unfold decimal_value, str_int. rewrite NilZero.isi.
  - cbn. by rewrite DecimalZ.of_to.
  - destruct z as [|p|p]; [done | | lia]. cbn. intros [= Hnil].
    by apply (DecimalPos.Unsigned.to_uint_nonnil p).
  - destruct z as [|p|p]; [done | done | lia].
Qed.

Lemma decimal_value_two_digits (x : Z) :
  0 ≤ x < 100 → decimal_value (two_digits x) = Some x.
Proof.
  intros Hx.
  assert (∃ n : nat, (n < 100)%nat ∧ x = Z.of_nat n) as (n & Hn & ->)
    by (exists (Z.to_nat x); lia).
  clear Hx. do 100 (destruct n as [|n]; [vm_compute; reflexivity|]). lia.
Qed.

Lemma decimal_value_zero_pad2 (h : Z) : 0 ≤ h → decimal_value (zero_pad2 h) = Some h.
Proof.
  intros Hh. unfold zero_pad2. destruct (Z.ltb_spec h 100).
  - apply decimal_value_two_digits. lia.
  - by apply decimal_value_str_int.
Qed.

Lemma colon_free_two_digits (x : Z) : 0 ≤ x < 100 → colon_free (two_digits x) = true.
Proof.
  intros Hx.
  assert (∃ n : nat, (n < 100)%nat ∧ x = Z.of_nat n) as (n & Hn & ->)
    by (exists (Z.to_nat x); lia).
  clear Hx. do 100 (destruct n as [|n]; [vm_compute; reflexivity|]). lia.
Qed.

Lemma colon_free_uint (d : Decimal.uint) :
  colon_free (NilEmpty.string_of_uint d) = true.
Proof. induction d; cbn; done. Qed.

Lemma colon_free_str_int (z : Z) : 0 ≤ z → colon_free (str_int z) = true.
Proof.
  intros Hz. destruct z as [|p|p]; [done | | lia].
  unfold str_int. cbn [Z.to_int NilZero.string_of_int].
  pose proof (colon_free_uint (Pos.to_uint p)) as Hfree.
  by destruct (Pos.to_uint p).
Qed.

Lemma colon_free_zero_pad2 (h : Z) : 0 ≤ h → colon_free (zero_pad2 h) = true.
Proof.
  intros Hh. unfold zero_pad2. destruct (Z.ltb_spec h 100).
  - apply colon_free_two_digits. lia.
  - by apply colon_free_str_int.
Qed.

(** Two strings that agree up to their first colon agree before and
    after it. *)
Lemma colon_split (a b x y : string) :
  colon_free a = true → colon_free b = true →
  a +:+ ":" +:+ x = b +:+ ":" +:+ y → a = b ∧ x = y.
Proof.
  revert b. induction a as [|c a IH]; intros [|c' b] Ha Hb Heq.
  - repeat rewrite ?append_empty_l, ?append_cons in Heq. by injection Heq as ->.
  - repeat rewrite ?append_empty_l, ?append_cons in Heq. injection Heq as <- _.
    cbn in Hb. done.
  - repeat rewrite ?append_empty_l, ?append_cons in Heq. injection Heq as -> _.
    cbn in Ha. done.
  - rewrite !(append_cons _ _ (":" +:+ _)) in Heq. injection Heq as -> Heq.
    cbn in Ha, Hb. apply andb_true_iff in Ha as [_ Ha], Hb as [_ Hb].
    destruct (IH b Ha Hb Heq) as [-> ->]. done.
Qed.

Lemma colon_free_with_colon (a b : string) : colon_free (a +:+ ":" +:+ b) = false.
Proof.
  induction a as [|c a IH]; [done|]. rewrite append_cons. cbn. rewrite IH.
  by destruct (Ascii.eqb c ":").
Qed.

(** Different positive durations are shown differently. *)
Theorem format_duration_inj (s1 s2 : Z) :
  0 < s1 → 0 < s2 → format_duration s1 = format_duration s2 → s1 = s2.
Proof.
  assert (∀ s, 0 ≤ s `mod` 60 < 100) as Hsec
    by (intros s; pose proof (Z.mod_pos_bound s 60); lia).
  assert (∀ s, 0 ≤ (s `div` 60) `mod` 60 < 100) as Hmin
    by (intros s; pose proof (Z.mod_pos_bound (s `div` 60) 60); lia).
  assert (∀ x y, 0 ≤ x < 100 → 0 ≤ y < 100 → two_digits x = two_digits y → x = y)
    as Htwo.
  { intros x y Hx Hy Heq. apply (f_equal decimal_value) in Heq.
    rewrite !decimal_value_two_digits in Heq by done. by injection Heq. }
  assert (∀ s, s = 3600 * (s `div` 3600) + 60 * ((s `div` 60) `mod` 60) + s `mod` 60)
    as Hsplit.
  { intros s. pose proof (Z.div_mod s 60 ltac:(lia)).
    pose proof (Z.div_mod (s `div` 60) 60 ltac:(lia)).
    replace (s `div` 3600) with ((s `div` 60) `div` 60)
      by (rewrite Z.div_div by lia; reflexivity). lia. }
  intros H1 H2 Heq.
  destruct (Z.lt_ge_cases s1 3600) as [Hs1|Hs1], (Z.lt_ge_cases s2 3600) as [Hs2|Hs2].
  - rewrite !format_duration_short in Heq by lia.
    assert (∀ s, 0 < s < 3600 → 0 ≤ s `div` 60 < 100) as Hm.
    { intros s Hs. split; [apply Z.div_pos; lia | apply Z.div_lt_upper_bound; lia]. }
    apply colon_split in Heq as [Hm12 Hc12];
      [|apply colon_free_two_digits; apply Hm; lia ..].
    apply Htwo in Hm12, Hc12; [|auto using Hm with lia ..].
    pose proof (Z.div_mod s1 60 ltac:(lia)).
    pose proof (Z.div_mod s2 60 ltac:(lia)). lia.
  - rewrite (format_duration_short s1), (format_duration_long s2) in Heq by lia.
    apply colon_split in Heq as [_ Hrest].
    + apply (f_equal colon_free) in Hrest.
      rewrite colon_free_two_digits, colon_free_with_colon in Hrest by done. done.
    + apply colon_free_two_digits.
      split; [apply Z.div_pos; lia | apply Z.div_lt_upper_bound; lia].
    + apply colon_free_zero_pad2. apply Z.div_pos; lia.
  - rewrite (format_duration_long s1), (format_duration_short s2) in Heq by lia.
    apply colon_split in Heq as [_ Hrest].
    + apply (f_equal colon_free) in Hrest.
      rewrite colon_free_two_digits, colon_free_with_colon in Hrest by done. done.
    + apply colon_free_zero_pad2. apply Z.div_pos; lia.
    + apply colon_free_two_digits.
      split; [apply Z.div_pos; lia | apply Z.div_lt_upper_bound; lia].
  - rewrite !format_duration_long in Heq by lia.
    assert (0 ≤ s1 `div` 3600 ∧ 0 ≤ s2 `div` 3600) as [Hh1 Hh2]
      by (split; apply Z.div_pos; lia).
    apply colon_split in Heq as [Hh Hrest]; [|by apply colon_free_zero_pad2 ..].
    apply colon_split in Hrest as [Hm12 Hc12]; [|by apply colon_free_two_digits ..].
    apply (f_equal decimal_value) in Hh.
    rewrite !decimal_value_zero_pad2 in Hh by done. injection Hh as Hh.
    apply Htwo in Hm12, Hc12; [|done ..].
    rewrite (Hsplit s1), (Hsplit s2). lia.
Qed.

Lemma format_duration_inj_witness :
  0 < 75 ∧ 0 < 4500 ∧ format_duration 75 ≠ format_duration 4500.
Proof.
  assert (0 < 75) as H1 by lia. assert (0 < 4500) as H2 by lia.
  refine (conj H1 (conj H2 _)). intros Heq.
  pose proof (format_duration_inj 75 4500 H1 H2 Heq). discriminate.
Defined.

Lemma format_duration_negative_witness :
  - 5 < 0 ∧ format_duration (- 5) = "59:55" ∧
  format_duration (- 5) = format_duration 3595.
Proof.
  assert (- 5 < 0) as H by lia.
  destruct (format_duration_negative (- 5) H) as [Heq Hwrap].
  refine (conj H (conj _ _)).
  - rewrite Heq. vm_compute. reflexivity.
  - rewrite Hwrap; [reflexivity | vm_compute; discriminate].
Defined.

(** ** is_valid_youtube_url: what the five patterns amount to *)

Lemma hosts_in_head_pattern (host : string) (p : regex) :
  head youtube_patterns = Some p → host ∈ recognized_hosts → host ∈ lang p.
Proof.
  intros [= <-] Hhost.
  assert (forallb (λ host,
            existsb (String.eqb host)
              (lang (default Void (head youtube_patterns))))
          recognized_hosts = true) as Hall by (vm_compute; reflexivity).
  rewrite forallb_forall in Hall. apply list_elem_of_In in Hhost.
  specialize (Hall host Hhost). apply existsb_exists in Hall as (u & Hu & Heq).
  apply String.eqb_eq in Heq as <-. by apply list_elem_of_In.
Qed.

(** The first pattern decides alone: the other four never change the
    answer. *)
Theorem first_pattern_decides (url : string) :
  is_valid_youtube_url url = any_pattern (take 1 youtube_patterns) url.
Proof.
  destruct (any_pattern (take 1 youtube_patterns) url) eqn:Hfirst.
  - apply any_pattern_exists in Hfirst as (p & Hp & Hsearch).
    unfold is_valid_youtube_url. apply any_pattern_exists. exists p.
    split; [|done]. apply list_elem_of_singleton in Hp as ->.
    apply list_elem_of_here.
  - destruct (is_valid_youtube_url url) eqn:Hvalid; [|done].
    apply is_valid_youtube_url_true in Hvalid as (host & Hhost & Hsub).
    rewrite <- Hfirst. symmetry. apply any_pattern_exists.
    destruct (head youtube_patterns) as [p|] eqn:Hhead; [|done].
    exists p. split.
    + injection Hhead as <-. apply list_elem_of_here.
    + apply re_search_lang. exists host. split; [|done].
      by apply hosts_in_head_pattern.
Qed.

(** Text around an accepted string does not matter: whatever is put
    before and after it, the result is accepted too. *)
Theorem is_valid_youtube_url_context (url before after : string) :
  is_valid_youtube_url url = true →
  is_valid_youtube_url (before +:+ url +:+ after) = true.
Proof.
  intros (host & Hhost & Hsub)%is_valid_youtube_url_true.
  apply is_valid_youtube_url_true. exists host. split; [done|].
  apply substring_of_trans with url; [done|]. by exists before, after.
Qed.

Lemma is_valid_youtube_url_context_witness :
  is_valid_youtube_url "youtu.be/abc" = true ∧
  is_valid_youtube_url ("not a link: " +:+ "youtu.be/abc" +:+ " at all") = true.
Proof.
  assert (is_valid_youtube_url "youtu.be/abc" = true) as H by reflexivity.
  exact (conj H (is_valid_youtube_url_context "youtu.be/abc" "not a link: "
                   " at all" H)).
Defined.

Lemma length_append (a b : string) :
  String.length (a +:+ b) = (String.length a + String.length b)%nat.
Proof.
  induction a as [|c a IH]; [done|]. rewrite append_cons. cbn. by rewrite IH.
Qed.

(** An accepted string has at least nine characters, the length of the
    shortest recognised host with its slash. *)
Theorem is_valid_youtube_url_min_length (url : string) :
  is_valid_youtube_url url = true → (9 ≤ String.length url)%nat.
Proof.
  intros (host & Hhost & a & b & ->)%is_valid_youtube_url_true.
  assert (9 ≤ String.length host)%nat as Hlen.
  { assert (forallb (λ host, 9 <=? String.length host)%nat recognized_hosts = true)
      as Hall by (vm_compute; reflexivity).
    rewrite forallb_forall in Hall. apply list_elem_of_In in Hhost.
    apply Nat.leb_le. by apply Hall. }
  rewrite !length_append. lia.
Qed.

Lemma is_valid_youtube_url_min_length_witness :
  is_valid_youtube_url "youtu.be/" = true ∧ (9 ≤ String.length "youtu.be/")%nat.
Proof.
  assert (is_valid_youtube_url "youtu.be/" = true) as H by reflexivity.
  exact (conj H (is_valid_youtube_url_min_length "youtu.be/" H)).
Defined.

(** ** main: the "Get Video Info" button *)

(** What a call leaves behind: one more library call, metadata only, and
    at most one message. *)
Lemma get_video_info_world (Y : YoutubeDL) (url : string) (w : world Y) :
  ∃ msgs,
    (get_video_info url w).2 =
      World (extract_info Y quiet_opts url false (lib w)).2
            (calls w ++ [ExtractInfo quiet_opts url false])
            (page w ++ msgs) ∧
    (msgs = [] ∨ ∃ msg, msgs = [StError msg]).
Proof.
  unfold get_video_info, ydl_extract_info.
  destruct (extract_info Y quiet_opts url false (lib w)) as [r l].
  destruct (r ≫= build_result) as [[vi fs]|e]; cbn.
  - exists []. rewrite app_nil_r. auto.
  - eexists [_]. eauto.
Qed.

(** The library is called only for a non-empty, accepted input, and then
    once and for metadata only; otherwise the click shows one of two
    fixed messages and changes nothing else. *)
Theorem get_info_clicked_guards (Y : YoutubeDL) (url : string) (a : app Y) :
  (url = "" →
   get_info_clicked url a = show (Error "Please enter a YouTube URL!") a) ∧
  (url ≠ "" → is_valid_youtube_url url = false →
   get_info_clicked url a = show (Error "Please enter a valid YouTube URL!") a) ∧
  (url ≠ "" → is_valid_youtube_url url = true →
   app_calls (get_info_clicked url a) =
     app_calls a ++ [ExtractInfo quiet_opts url false] ∧
   app_lib (get_info_clicked url a) =
     (extract_info Y quiet_opts url false (app_lib a)).2).
Proof.
  unfold get_info_clicked. split; [|split].
  - by intros ->.
  - intros Hne Hinvalid. apply String.eqb_neq in Hne. by rewrite Hne, Hinvalid.
  - intros Hne Hvalid. apply String.eqb_neq in Hne. rewrite Hne, Hvalid. cbn [negb].
    unfold call_get_video_info.
    destruct (get_video_info_world Y url (World (app_lib a) (app_calls a) []))
      as (msgs & Hw & _).
    destruct (get_video_info url (World (app_lib a) (app_calls a) []))
      as [[vi fs] w]. cbn [snd] in Hw. subst w.
    by destruct vi as [vi|], fs as [[|f fs]|].
Qed.

Lemma get_info_clicked_session (Y : YoutubeDL) (url : string) (a : app Y) :
  session (get_info_clicked url a) = session a ∨
  ∃ info f fs (w w' : world Y),
    session (get_info_clicked url a) =
      SessionState (Some info) (Some (f :: fs)) (Some url) ∧
    url ≠ "" ∧ is_valid_youtube_url url = true ∧
    get_video_info url w = ((Some info, Some (f :: fs)), w').
Proof.
  unfold get_info_clicked. destruct (String.eqb_spec url ""); [by left|].
  destruct (is_valid_youtube_url url) eqn:Hvalid; [|by left]. cbn [negb].
  unfold call_get_video_info.
  destruct (get_video_info url (World (app_lib a) (app_calls a) []))
    as [[vi fs] w] eqn:Hget.
  destruct vi as [vi|], fs as [[|f fs]|]; try by left.
  right. by eexists vi, f, fs, _, _.
Qed.

(** The three session variables always belong together: after any
    number of clicks the session is still empty, or it holds a non-empty,
    accepted URL with the VideoInfo and the non-empty format list that
    one successful fetch returned for that URL. *)
Theorem session_invariant (Y : YoutubeDL) (urls : list string) (a : app Y) :
  session_ok Y (session a) → session_ok Y (session (clicks urls a)).
Proof.
  unfold clicks. revert a. induction urls as [|url urls IH]; intros a Hok; [done|].
  cbn [foldl]. apply IH.
  destruct (get_info_clicked_session Y url a)
    as [->|(info & f & fs & w & w' & -> & Hne & Hvalid & Hget)]; [done|].
  right. by exists info, f, fs, url, w, w'.
Qed.

Lemma for_append_none_selected (body : pyval → result (option format_option))
    (test : gmap string pyval → bool)
    (option_of : gmap string pyval → result format_option)
    (ds : list (gmap string pyval)) (formats : list format_option) :
  (∀ d, body (PyDict d) =
          if test d then o ← option_of d; Ok (Some o) else Ok None) →
  Forall (λ d, test d = false) ds →
  for_append body (PyDict <$> ds) formats = Ok formats.
Proof.
  intros Hbody. induction 1 as [|d ds Hd _ IH]; [done|].
  rewrite fmap_cons. cbn [for_append]. rewrite Hbody, Hd.
  cbn [mbind result_bind]. exact IH.
Qed.

(** A record without formats, or whose renditions all fail both tests
    (video without audio, say), is fetched successfully with an empty
    format list; the click then reports a failure and leaves the session
    as it was. *)
Theorem fetch_without_audio_reported_failed (Y : YoutubeDL) (url : string)
    (a : app Y) (info : gmap string pyval) (l : lib_state Y) :
  url ≠ "" → is_valid_youtube_url url = true →
  extract_info Y quiet_opts url false (app_lib a) = (Ok (PyDict info), l) →
  (info !! "formats" = None ∨
   ∃ ds, info !! "formats" = Some (PyList (PyDict <$> ds)) ∧
         Forall (λ d, is_video_audio d = false ∧ is_audio_only d = false) ds) →
  (∃ video_info w',
     get_video_info url (World (app_lib a) (app_calls a) []) =
       ((Some video_info, Some []), w') ∧ page w' = []) ∧
  get_info_clicked url a =
    App l (app_calls a ++ [ExtractInfo quiet_opts url false])
      (app_page a ++
       [Error "Failed to fetch video information. Please check the URL and try again."])
      (session a).
Proof.
  intros Hne Hvalid Hlib Hformats.
  assert (∃ vi, build_result (PyDict info) = Ok (vi, [])) as [vi Hbuild].
  { unfold build_result. destruct Hformats as [->|(ds & -> & Hnone)]; [by eexists|].
    apply Forall_and in Hnone as [Hva Hao]. cbn [py_iter mbind result_bind].
    rewrite (for_append_none_selected video_audio_body is_video_audio
               video_audio_option ds []) by done.
    cbn [mbind result_bind].
    rewrite (for_append_none_selected audio_only_body is_audio_only
               audio_only_option ds []) by done.
    by eexists. }
  assert (get_video_info url (World (app_lib a) (app_calls a) []) =
          ((Some vi, Some []),
           World l (app_calls a ++ [ExtractInfo quiet_opts url false]) []))
    as Hget.
  { unfold get_video_info, ydl_extract_info. cbn [lib calls page].
    rewrite Hlib. cbn [mbind result_bind]. by rewrite Hbuild. }
  split; [by eexists _, _|].
  unfold get_info_clicked, call_get_video_info.
  apply String.eqb_neq in Hne. rewrite Hne, Hvalid, Hget. cbn.
  by rewrite app_nil_r.
Qed.

(** When the library raises, the click shows two messages, the error of
    [get_video_info] and then the general failure text, and leaves the
    session as it was. *)
Theorem library_error_shown_twice (Y : YoutubeDL) (url : string) (a : app Y)
    (e : exception) (l : lib_state Y) :
  url ≠ "" → is_valid_youtube_url url = true →
  extract_info Y quiet_opts url false (app_lib a) = (Raise e, l) →
  get_info_clicked url a =
    App l (app_calls a ++ [ExtractInfo quiet_opts url false])
      (app_page a ++
       [Error ("Error fetching video info: " +:+ exc_str e);
        Error "Failed to fetch video information. Please check the URL and try again."])
      (session a).
Proof.
  intros Hne Hvalid Hlib.
  unfold get_info_clicked, call_get_video_info, get_video_info, ydl_extract_info.
  apply String.eqb_neq in Hne. rewrite Hne, Hvalid. cbn [negb lib calls page].
  rewrite Hlib. cbn. unfold show. cbn. by rewrite <- app_assoc.
Qed.

(** On a record with well-formed renditions of which at least one passes
    a test, the click stores what [get_video_info] returned together with
    the URL, and shows the success message. *)
Theorem successful_click_stores_fetch (Y : YoutubeDL) (url : string) (a : app Y)
    (info : gmap string pyval) (l : lib_state Y)
    (ds : list (gmap string pyval)) (d : gmap string pyval) :
  url ≠ "" → is_valid_youtube_url url = true →
  extract_info Y quiet_opts url false (app_lib a) = (Ok (PyDict info), l) →
  info !! "formats" = Some (PyList (PyDict <$> ds)) →
  Forall (λ d, is_Some (d !! "format_id")) ds →
  d ∈ ds → is_video_audio d = true ∨ is_audio_only d = true →
  ∃ video_info f fs w',
    get_video_info url (World (app_lib a) (app_calls a) []) =
      ((Some video_info, Some (f :: fs)), w') ∧
    get_info_clicked url a =
      App l (app_calls a ++ [ExtractInfo quiet_opts url false])
        (app_page a ++ [Success "Video information fetched successfully!"])
        (SessionState (Some video_info) (Some (f :: fs)) (Some url)).
Proof.
  intros Hne Hvalid Hlib Hformats Hids Hd Htest.
  destruct (get_video_info_ok url (World (app_lib a) (app_calls a) []) info l ds
              Hlib Hformats Hids) as (vi & va & ao & Hget & Hva & Hao).
  assert (∃ f fs, va ++ ao = f :: fs) as (f & fs & Hcons).
  { destruct (va ++ ao) as [|f fs] eqn:Happ; [|by eexists _, _].
    apply app_eq_nil in Happ as [-> ->].
    apply Forall2_nil_inv_r in Hva, Hao.
    destruct Htest as [Ht|Ht].
    - assert (d ∈ filter (λ d, is_video_audio d = true) ds) as Hin
        by (by apply list_elem_of_filter).
      rewrite Hva in Hin. by apply elem_of_nil in Hin.
    - assert (d ∈ filter (λ d, is_audio_only d = true) ds) as Hin
        by (by apply list_elem_of_filter).
      rewrite Hao in Hin. by apply elem_of_nil in Hin. }
  rewrite Hcons in Hget. eexists vi, f, fs, _. split; [exact Hget|].
  unfold get_info_clicked, call_get_video_info.
  apply String.eqb_neq in Hne. rewrite Hne, Hvalid, Hget. cbn.
  by rewrite app_nil_r.
Qed.

(** ** main: the formats offered for download *)

Lemma formats_to_show_cases (format_type : string) (formats : list format_option) :
  formats_to_show format_type formats = video_formats formats ∨
  formats_to_show format_type formats = audio_formats formats ∨
  formats_to_show format_type formats = [].
Proof.
  unfold formats_to_show.
  destruct (String.eqb format_type "Video + Audio" &&
            list_true (video_formats formats)); [by left|].
  destruct (String.eqb format_type "Audio Only" &&
            list_true (audio_formats formats)); auto.
Qed.

Lemma formats_to_show_bucket (formats : list format_option) :
  formats_to_show "Video + Audio" formats = video_formats formats ∧
  formats_to_show "Audio Only" formats = audio_formats formats.
Proof.
  unfold formats_to_show. split.
  - cbn [String.eqb Ascii.eqb Bool.eqb andb]. by destruct (video_formats formats).
  - change (String.eqb "Audio Only" "Video + Audio") with false.
    change (String.eqb "Audio Only" "Audio Only") with true.
    cbn [andb]. by destruct (audio_formats formats).
Qed.

(** What is offered for download comes from the library: each of the two
    choices offers its whole bucket, and every format offered, whatever
    the choice, carries the format id of a rendition of the library's
    list whose audio codec is not "none". *)
Theorem offered_formats_come_from_library (Y : YoutubeDL) (url : string)
    (w : world Y) (info : gmap string pyval) (l : lib_state Y)
    (ds : list (gmap string pyval)) :
  extract_info Y quiet_opts url false (lib w) = (Ok (PyDict info), l) →
  info !! "formats" = Some (PyList (PyDict <$> ds)) →
  Forall (λ d, is_Some (d !! "format_id")) ds →
  ∃ video_info formats w',
    get_video_info url w = ((Some video_info, Some formats), w') ∧
    formats_to_show "Video + Audio" formats = video_formats formats ∧
    formats_to_show "Audio Only" formats = audio_formats formats ∧
    ∀ format_type i f,
      formats_to_show format_type formats !! i = Some f →
      ∃ d, d ∈ ds ∧ d !! "format_id" = Some (format_id f) ∧
           ne_str (dict_get d "acodec" PyNone) "none" = true.
Proof.
  intros Hlib Hformats Hids.
  destruct (get_video_info_ok url w info l ds Hlib Hformats Hids)
    as (vi & va & ao & Hget & Hva & Hao).
  destruct (video_formats_app va ao (entries_video_audio _ _ Hva)
              (entries_audio_only _ _ Hao)) as [Hvf Haf].
  eexists vi, (va ++ ao), _. split; [exact Hget|].
  destruct (formats_to_show_bucket (va ++ ao)) as [Hv Ha].
  split; [done|]. split; [done|].
  intros format_type i f Hi.
  destruct (formats_to_show_cases format_type (va ++ ao)) as [Heq|[Heq|Heq]];
    rewrite Heq in Hi.
  - rewrite Hvf in Hi.
    destruct (Forall2_lookup_r _ _ _ _ _ Hva Hi) as (d & Hd & Hopt).
    apply list_elem_of_lookup_2, list_elem_of_filter in Hd as [Htest Hin].
    exists d. split; [done|]. split; [by apply video_audio_option_fields|].
    unfold is_video_audio in Htest. by apply andb_true_iff in Htest as [_ ?].
  - rewrite Haf in Hi.
    destruct (Forall2_lookup_r _ _ _ _ _ Hao Hi) as (d & Hd & Hopt).
    apply list_elem_of_lookup_2, list_elem_of_filter in Hd as [Htest Hin].
    exists d. split; [done|]. split; [by apply audio_only_option_fields|].
    unfold is_audio_only in Htest. by apply andb_true_iff in Htest as [_ ?].
  - done.
Qed.

(** ** The further properties at work *)

Lemma get_video_info_one_entry_each_witness :
  ∃ video_info formats w',
    get_video_info "https://youtu.be/x" (fresh sample_library 0%nat) =
      ((Some video_info, Some formats), w') ∧
    length formats =
      (length (filter (λ d, is_video_audio d = true) sample_formats) +
       length (filter (λ d, is_audio_only d = true) sample_formats))%nat ∧
    (length formats ≤ length sample_formats)%nat.
Proof.
  exact (get_video_info_one_entry_each sample_library "https://youtu.be/x"
           (fresh sample_library 0%nat) sample_info 1%nat sample_formats
           sample_call sample_info_formats sample_format_ids).
Defined.

Lemma get_video_info_copies_fields_witness :
  ∃ video_info formats w',
    get_video_info "https://youtu.be/x" (fresh sample_library 0%nat) =
      ((Some video_info, Some formats), w') ∧
    Forall2 (λ d entry,
               d !! "format_id" = Some (format_id entry) ∧
               ext entry = default (PyStr "mp4") (d !! "ext") ∧
               filesize entry = default (PyInt 0) (d !! "filesize"))
      (filter (λ d, is_video_audio d = true) sample_formats)
      (video_formats formats) ∧
    Forall2 (λ d entry,
               d !! "format_id" = Some (format_id entry) ∧
               ext entry = default (PyStr "mp3") (d !! "ext") ∧
               filesize entry = default (PyInt 0) (d !! "filesize"))
      (filter (λ d, is_audio_only d = true) sample_formats)
      (audio_formats formats).
Proof.
  exact (get_video_info_copies_fields sample_library "https://youtu.be/x"
           (fresh sample_library 0%nat) sample_info 1%nat sample_formats
           sample_call sample_info_formats sample_format_ids).
Defined.

Lemma offered_formats_come_from_library_witness :
  ∃ video_info formats w',
    get_video_info "https://youtu.be/x" (fresh sample_library 0%nat) =
      ((Some video_info, Some formats), w') ∧
    formats_to_show "Video + Audio" formats = video_formats formats ∧
    formats_to_show "Audio Only" formats = audio_formats formats ∧
    ∀ format_type i f,
      formats_to_show format_type formats !! i = Some f →
      ∃ d, d ∈ sample_formats ∧ d !! "format_id" = Some (format_id f) ∧
           ne_str (dict_get d "acodec" PyNone) "none" = true.
Proof.
  exact (offered_formats_come_from_library sample_library "https://youtu.be/x"
           (fresh sample_library 0%nat) sample_info 1%nat sample_formats
           sample_call sample_info_formats sample_format_ids).
Defined.

Lemma get_info_clicked_guards_witness :
  get_info_clicked "vimeo.com/12345" (started sample_library 0%nat) =
    App (0%nat : lib_state sample_library) []
      [Error "Please enter a valid YouTube URL!"] empty_session.
Proof.
  rewrite (proj1 (proj2 (get_info_clicked_guards sample_library "vimeo.com/12345"
                           (started sample_library 0%nat)))); done.
Defined.

Lemma session_invariant_witness :
  session_ok sample_library (session (started sample_library 0%nat)) ∧
  session_ok sample_library
    (session (clicks [""; "vimeo.com/12345"; "https://youtu.be/x"]
                (started sample_library 0%nat))).
Proof.
  assert (session_ok sample_library (session (started sample_library 0%nat)))
    as H by (by left).
  exact (conj H (session_invariant sample_library
                   [""; "vimeo.com/12345"; "https://youtu.be/x"]
                   (started sample_library 0%nat) H)).
Defined.

Lemma video_only_call :
  extract_info video_only_library quiet_opts "https://youtu.be/x" false
    (app_lib (started video_only_library 0%nat)) =
    (Ok (PyDict video_only_info), 1%nat).
Proof. reflexivity. Defined.

Lemma fetch_without_audio_reported_failed_witness :
  "https://youtu.be/x" ≠ "" ∧
  is_valid_youtube_url "https://youtu.be/x" = true ∧
  get_info_clicked "https://youtu.be/x" (started video_only_library 0%nat) =
    App (1%nat : lib_state video_only_library)
      ([] ++ [ExtractInfo quiet_opts "https://youtu.be/x" false])
      ([] ++
       [Error "Failed to fetch video information. Please check the URL and try again."])
      empty_session.
Proof.
  assert ("https://youtu.be/x" ≠ "") as H1 by discriminate.
  assert (is_valid_youtube_url "https://youtu.be/x" = true) as H2 by reflexivity.
  refine (conj H1 (conj H2 _)).
  apply (fetch_without_audio_reported_failed video_only_library
           "https://youtu.be/x" (started video_only_library 0%nat)
           video_only_info 1%nat H1 H2 video_only_call).
  right. exists video_only_formats. split; [vm_compute; reflexivity|].
  repeat (apply Forall_cons_2; [split; vm_compute; reflexivity|]).
  apply Forall_nil_2.
Defined.

Lemma library_error_shown_twice_witness :
  get_info_clicked "https://youtu.be/gone" (started failing_library 0%nat) =
    App (1%nat : lib_state failing_library)
      ([] ++ [ExtractInfo quiet_opts "https://youtu.be/gone" false])
      ([] ++
       [Error ("Error fetching video info: " +:+
               exc_str (LibraryError "ERROR: Video unavailable"));
        Error "Failed to fetch video information. Please check the URL and try again."])
      empty_session.
Proof.
  exact (library_error_shown_twice failing_library "https://youtu.be/gone"
           (started failing_library 0%nat)
           (LibraryError "ERROR: Video unavailable") 1%nat
           ltac:(discriminate) eq_refl eq_refl).
Defined.

Lemma successful_click_stores_fetch_witness :
  ∃ video_info f fs w',
    get_video_info "https://youtu.be/x"
      (World (app_lib (started sample_library 0%nat))
             (app_calls (started sample_library 0%nat)) []) =
      ((Some video_info, Some (f :: fs)), w') ∧
    get_info_clicked "https://youtu.be/x" (started sample_library 0%nat) =
      App (1%nat : lib_state sample_library)
        ([] ++ [ExtractInfo quiet_opts "https://youtu.be/x" false])
        ([] ++ [Success "Video information fetched successfully!"])
        (SessionState (Some video_info) (Some (f :: fs))
                      (Some "https://youtu.be/x")).
Proof.
  apply (successful_click_stores_fetch sample_library "https://youtu.be/x"
           (started sample_library 0%nat) sample_info 1%nat sample_formats
           sample_video ltac:(discriminate) eq_refl eq_refl
           sample_info_formats sample_format_ids).
  - apply list_elem_of_further, list_elem_of_here.
  - left. vm_compute. reflexivity.
Defined.
